(** * FlightAI tools and the Cybersecurity Analyzer endpoint

    A shallow embedding of [airline.py], [backend/context.py],
    [backend/mcp_servers.py] and [backend/server.py].

    Python text is a list of Unicode code points, integers are [Z], floats
    are binary64 values ([spec_float] at precision 53), and code that can
    raise or that touches the environment, standard output, the SQLite file
    or the agent runtime runs in a state-and-exception monad over an
    explicit world. *)

From Stdlib Require Import ZArith NArith List String Ascii DecimalString Lia.
From Stdlib Require Import DecimalPos DecimalZ.
From Stdlib Require Import Floats.SpecFloat.
From stdpp Require Import base option list gmap.

(** ** The Python runtime the sources rely on *)
Module Py.

Local Open Scope Z_scope.

(** *** Text *)

(** A [str] is a sequence of code points. *)
Definition pystr : Type := list N.

(** An ASCII literal of the source, as a [str]. *)
Definition lit (s : string) : pystr := N_of_ascii <$> list_ascii_of_string s.

(** [len(s)] *)
Definition len (s : pystr) : Z := Z.of_nat (length s).

(** [str(z)] for an [int]: decimal digits, with a minus sign when negative. *)
Definition str_of_int (z : Z) : pystr := lit (NilZero.string_of_int (Z.to_int z)).

(** [c.isspace()]: the code points CPython treats as whitespace. *)
Definition isspace (c : N) : bool :=
  (((9 <=? c) && (c <=? 13)) || ((28 <=? c) && (c <=? 32))
   || (c =? 133) || (c =? 160) || (c =? 5760)
   || ((8192 <=? c) && (c <=? 8202))
   || (c =? 8232) || (c =? 8233) || (c =? 8239) || (c =? 8287)
   || (c =? 12288))%N.

(** [s.lstrip()], [s.rstrip()] and [s.strip()] without argument. *)
Fixpoint lstrip (s : pystr) : pystr :=
  match s with
  | c :: r => if isspace c then lstrip r else s
  | [] => []
  end.

Definition rstrip (s : pystr) : pystr := reverse (lstrip (reverse s)).

Definition strip (s : pystr) : pystr := rstrip (lstrip s).

(** Truth value of a [str]: empty text is false. *)
Definition truthy (s : pystr) : bool :=
  match s with [] => false | _ => true end.

Definition is_ascii (c : N) : bool := (c <? 128)%N.

Definition ascii_lower (c : N) : N :=
  if ((65 <=? c) && (c <=? 90))%N then (c + 32)%N else c.

(** *** Exceptions *)

(** [HTTPException] is FastAPI's; [Error] stands for an instance of any other
    subclass of [Exception], [Exit] for a [BaseException] outside
    [Exception] ([SystemExit], [KeyboardInterrupt], ...).  [msg] is what
    [str(e)] gives. *)
Inductive exn : Type :=
  | HTTPException (status_code : Z) (detail : pystr)
  | Error (cls : string) (msg : pystr)
  | Exit (cls : string) (msg : pystr).

(** [isinstance(e, Exception)] *)
Definition is_Exception (e : exn) : bool :=
  match e with Exit _ _ => false | _ => true end.

(** [str(e)] *)
Definition exn_str (e : exn) : pystr :=
  match e with
  | HTTPException s d => str_of_int s ++ lit ": " ++ d
  | Error _ m | Exit _ m => m
  end.

Inductive outcome (A : Type) : Type :=
  | Returned (a : A)
  | Raised (e : exn).
Arguments Returned {A} a.
Arguments Raised {A} e.

(** *** Effects: a world threaded through, and exceptions *)

Definition Eff (W A : Type) : Type := W → outcome A * W.

#[export] Instance eff_ret {W} : MRet (Eff W) := λ A a w, (Returned a, w).

#[export] Instance eff_bind {W} : MBind (Eff W) := λ A B k m w,
  match m w with
  | (Returned a, w') => k a w'
  | (Raised e, w') => (Raised e, w')
  end.

Definition raise {W A} (e : exn) : Eff W A := λ w, (Raised e, w).

Definition gets {W A} (f : W → A) : Eff W A := λ w, (Returned (f w), w).

Definition modify {W} (f : W → W) : Eff W unit := λ w, (Returned tt, f w).

(** An [outcome] computed without the world, run inside it. *)
Definition lift {W A} (o : outcome A) : Eff W A := λ w, (o, w).

(** [try: body  except Exception as e: handler e] *)
Definition try_except {W A} (body : Eff W A) (handler : exn → Eff W A) : Eff W A :=
  λ w, match body w with
       | (Raised e, w') => if is_Exception e then handler e w' else (Raised e, w')
       | r => r
       end.

(** [for x in l: f x] *)
Fixpoint for_each {W A} (l : list A) (f : A → Eff W unit) : Eff W unit :=
  match l with
  | [] => mret tt
  | x :: r => f x;; for_each r f
  end.

(** *** Floats *)

Definition float : Type := spec_float.

(** The binary64 value nearest to an integer. *)
Definition float_of_Z (z : Z) : float := binary_normalize 53 1024 z 0 false.

(** The binary64 value nearest to [n / d], for [0 <= n] and [0 < d], with
    the sign [s]. *)
Definition float_of_ratio (s : bool) (n d : Z) : float :=
  if n =? 0 then S754_zero s
  else let '(q, e, l) := SFdiv_core_binary 53 1024 n 0 d 0 in
       binary_round_aux 53 1024 s q e l.

(** [float(z)] for an [int]. *)
Definition float_of_int (z : Z) : outcome float :=
  match float_of_Z z with
  | S754_infinity _ => Raised (Error "OverflowError" (lit "int too large to convert to float"))
  | f => Returned f
  end.

(** Is [a / b < 10 ^ k]?  ([0 < b]) *)
Definition lt_pow10 (a b k : Z) : bool :=
  if 0 <=? k then a <? b * 10 ^ k else a * 10 ^ (- k) <? b.

(** The least [k], from the one given, with [a / b < 10 ^ k]. *)
Fixpoint decpt_from (fuel : nat) (a b k : Z) : Z :=
  match fuel with
  | O => k
  | S f => if lt_pow10 a b k then k else decpt_from f a b (k + 1)
  end.

(** The [k] with [10 ^ (k - 1) <= a / b < 10 ^ k], searched upwards from a
    lower estimate taken from the binary lengths of [a] and [b]. *)
Definition decpt (a b : Z) : Z :=
  decpt_from 8 a b ((Z.log2 a - Z.log2 b - 1) * 30103 / 100000 - 1).

(** The shortest decimal [d * 10 ^ q] that reads back as the float whose
    value is [x / den] and whose rounding interval is [lo / den .. hi / den]
    (closed when [incl]); among the decimals of that length, the nearest to
    the value, ties to the even [d].  [n] is the number of digits tried. *)
Fixpoint shortest_from (fuel : nat) (n x lo hi den : Z) (incl : bool) (k : Z)
  : option (Z * Z) :=
  match fuel with
  | O => None
  | S f =>
      let q := k - n in
      let P := if 0 <=? q then 10 ^ q * den else den in
      let R := if 0 <=? q then 1 else 10 ^ (- q) in
      let dlo := (x * R) / P in
      let dhi := dlo + 1 in
      let inside d :=
        if incl then (lo * R <=? d * P) && (d * P <=? hi * R)
        else (lo * R <? d * P) && (d * P <? hi * R) in
      match inside dlo, inside dhi with
      | false, false => shortest_from f (n + 1) x lo hi den incl k
      | true, false => Some (dlo, q)
      | false, true => Some (dhi, q)
      | true, true =>
          match 2 * x * R ?= (2 * dlo + 1) * P with
          | Lt => Some (dlo, q)
          | Gt => Some (dhi, q)
          | Eq => Some (if Z.even dlo then dlo else dhi, q)
          end
      end
  end.

Fixpoint drop_zeros (ds : pystr) : pystr :=
  match ds with
  | c :: r => if (c =? 48)%N then drop_zeros r else ds
  | [] => []
  end.

(** A digit string without its trailing zeros. *)
Definition strip_zeros (ds : pystr) : pystr := reverse (drop_zeros (reverse ds)).

(** Digits and position of the decimal point of the shortest decimal of the
    positive float [m * 2 ^ e]: the value is [0.digits * 10 ^ point]. *)
Definition shortest_digits (m : positive) (e : Z) : pystr * Z :=
  let den := 2 ^ Z.max (2 - e) 0 in
  let sc := 2 ^ Z.max (e - 2) 0 in
  let x := 4 * Zpos m * sc in
  let delta := if (Zpos m =? 2 ^ 52) && (-1074 <? e) then 1 else 2 in
  let lo := (4 * Zpos m - delta) * sc in
  let hi := (4 * Zpos m + 2) * sc in
  match shortest_from 17 1 x lo hi den (Z.even (Zpos m)) (decpt x den) with
  | Some (d, q) => let ds := str_of_int d in (strip_zeros ds, q + len ds)
  | None => ([], 0)
  end.

Definition zeros (n : Z) : pystr := replicate (Z.to_nat n) 48%N.

(** [repr(x)] of a float, which is also [str(x)] and what an f-string
    writes for it. *)
Definition float_repr (x : float) : pystr :=
  match x with
  | S754_nan => lit "nan"
  | S754_infinity s => if s then lit "-inf" else lit "inf"
  | S754_zero s => if s then lit "-0.0" else lit "0.0"
  | S754_finite s m e =>
      let '(ds, dp) := shortest_digits m e in
      let n := len ds in
      let body :=
        if (dp <=? -4) || (16 <? dp) then
          let ex := dp - 1 in
          let exd := str_of_int (Z.abs ex) in
          take 1 ds ++ (if 1 <? n then lit "." ++ drop 1 ds else [])
            ++ lit "e" ++ (if ex <? 0 then lit "-" else lit "+")
            ++ (if Z.abs ex <? 10 then lit "0" else []) ++ exd
        else if dp <=? 0 then lit "0." ++ zeros (- dp) ++ ds
        else if dp <? n then
          take (Z.to_nat dp) ds ++ lit "." ++ drop (Z.to_nat dp) ds
        else ds ++ zeros (dp - n) ++ lit ".0" in
      (if s then lit "-" else []) ++ body
  end.

(** *** Objects *)

(** The values [eval] and a table cell can give: an [int], a [float], or
    some other object, known by what [str] does on it. *)
Inductive pyobj : Type :=
  | PyInt (z : Z)
  | PyFloat (f : float)
  | PyObject (text : outcome pystr).

(** [str(v)], and the text an f-string field [{v}] writes. *)
Definition py_str (v : pyobj) : outcome pystr :=
  match v with
  | PyInt z => Returned (str_of_int z)
  | PyFloat f => Returned (float_repr f)
  | PyObject t => t
  end.

(** What the sources take from the interpreter and its library without this
    development fixing it: the text of a traceback, lower-casing beyond
    ASCII, and [eval] beyond plain arithmetic. *)
Class Runtime : Type := {
  format_exc : exn → pystr;
  lower_unicode : pystr → pystr;
  eval_other : pystr → outcome pyobj;
  syntax_error_text : pystr → pystr
}.

(** [s.lower()] *)
Definition lower `{Runtime} (s : pystr) : pystr :=
  if forallb is_ascii s then ascii_lower <$> s else lower_unicode s.

(** *** [eval] on plain arithmetic

    Decimal integer and point-float literals, unary and binary [+] [-],
    [*], [/], parentheses, blanks and tabs, in at most [max_arith_len]
    characters.  Everything else is left to [eval_other]. *)

Inductive token : Type :=
  | TInt (ds : pystr)
  | TFloat (ip fp : pystr)
  | TPlus | TMinus | TStar | TSlash | TLPar | TRPar.

Inductive lexstate : Type :=
  | LIdle
  | LInt (ds : pystr)
  | LFrac (ip fp : pystr).

Definition isdigit (c : N) : bool := ((48 <=? c) && (c <=? 57))%N.

Definition flush (st : lexstate) : list token :=
  match st with
  | LIdle => []
  | LInt ds => [TInt ds]
  | LFrac ip fp => [TFloat ip fp]
  end.

(** A token starts at [c]; [next] is the character after it.  Gives the
    tokens completed and the state to go on in; [None] when the text leaves
    the fragment: a character outside it, a lone dot, [**] or [//]. *)
Definition lex_start (c : N) (next : option N) : option (list token * lexstate) :=
  if ((c =? 32) || (c =? 9))%N then Some ([], LIdle)
  else if isdigit c then Some ([], LInt [c])
  else if (c =? 46)%N then
    match next with
    | Some d => if isdigit d then Some ([], LFrac [] []) else None
    | None => None
    end
  else if (c =? 42)%N then
    match next with
    | Some 42%N => None
    | _ => Some ([TStar], LIdle)
    end
  else if (c =? 47)%N then
    match next with
    | Some 47%N => None
    | _ => Some ([TSlash], LIdle)
    end
  else if (c =? 43)%N then Some ([TPlus], LIdle)
  else if (c =? 45)%N then Some ([TMinus], LIdle)
  else if (c =? 40)%N then Some ([TLPar], LIdle)
  else if (c =? 41)%N then Some ([TRPar], LIdle)
  else None.

(** One character read in state [st]: a literal under way is extended, or
    completed before the token that starts at [c]. *)
Definition lex_step (st : lexstate) (c : N) (next : option N)
  : option (list token * lexstate) :=
  match st with
  | LIdle => lex_start c next
  | LInt ds =>
      if isdigit c then Some ([], LInt (ds ++ [c]))
      else if (c =? 46)%N then Some ([], LFrac ds [])
      else prod_map (cons (TInt ds)) id <$> lex_start c next
  | LFrac ip fp =>
      if isdigit c then Some ([], LFrac ip (fp ++ [c]))
      else prod_map (cons (TFloat ip fp)) id <$> lex_start c next
  end.

Fixpoint lex (st : lexstate) (s : pystr) : option (list token) :=
  match s with
  | [] => Some (flush st)
  | c :: r =>
      match lex_step st c (head r) with
      | Some (out, st') => app out <$> lex st' r
      | None => None
      end
  end.

Definition ends_primary (t : token) : bool :=
  match t with TInt _ | TFloat _ _ | TRPar => true | _ => false end.

(** Call syntax [1(2)] and the empty tuple [()] are outside the fragment. *)
Fixpoint has_call_or_tuple (ts : list token) : bool :=
  match ts with
  | a :: (b :: _) as r =>
      match a, b with
      | TLPar, TRPar => true
      | _, TLPar => ends_primary a || has_call_or_tuple r
      | _, _ => has_call_or_tuple r
      end
  | _ => false
  end.

(** Numbers of the fragment. *)
Inductive num : Type :=
  | NInt (z : Z)
  | NFloat (f : float).

Inductive binop : Type := Add | Sub | Mul | Div.

Inductive expr : Type :=
  | ELit (v : num)
  | EPos (e : expr)
  | ENeg (e : expr)
  | EBin (op : binop) (l r : expr).

Definition digits_value (ds : pystr) : Z :=
  fold_left (λ acc c, 10 * acc + (Z.of_N c - 48)) ds 0.

(** The value of a literal; [None] for an integer literal with a leading
    zero that is not zero, which the tokenizer rejects. *)
Definition literal (ds : pystr) : option num :=
  match ds with
  | 48%N :: _ :: _ => if forallb (N.eqb 48) ds then Some (NInt 0) else None
  | _ => Some (NInt (digits_value ds))
  end.

(** The value of a point-float literal [ip.fp]: the float nearest to it. *)
Definition float_literal (ip fp : pystr) : num :=
  NFloat (float_of_ratio false (digits_value (ip ++ fp)) (10 ^ len fp)).

Inductive parsed (A : Type) : Type :=
  | Parsed (a : A) (rest : list token)
  | Malformed
  | Starved.
Arguments Parsed {A} a rest.
Arguments Malformed {A}.
Arguments Starved {A}.

(** Recursive descent over [sum: term (('+'|'-') term)*],
    [term: factor (('*'|'/') factor)*], [factor: ('+'|'-') factor | atom],
    [atom: NUMBER | '(' sum ')'], operators associating to the left. *)
Fixpoint parse_sum (fuel : nat) (ts : list token) : parsed expr :=
  match fuel with
  | O => Starved
  | S f =>
      match parse_term f ts with
      | Parsed e r => parse_sum_tail f e r
      | other => other
      end
  end
with parse_sum_tail (fuel : nat) (lhs : expr) (ts : list token) : parsed expr :=
  match fuel with
  | O => Starved
  | S f =>
      match ts with
      | TPlus :: r =>
          match parse_term f r with
          | Parsed e r' => parse_sum_tail f (EBin Add lhs e) r'
          | other => other
          end
      | TMinus :: r =>
          match parse_term f r with
          | Parsed e r' => parse_sum_tail f (EBin Sub lhs e) r'
          | other => other
          end
      | _ => Parsed lhs ts
      end
  end
with parse_term (fuel : nat) (ts : list token) : parsed expr :=
  match fuel with
  | O => Starved
  | S f =>
      match parse_factor f ts with
      | Parsed e r => parse_term_tail f e r
      | other => other
      end
  end
with parse_term_tail (fuel : nat) (lhs : expr) (ts : list token) : parsed expr :=
  match fuel with
  | O => Starved
  | S f =>
      match ts with
      | TStar :: r =>
          match parse_factor f r with
          | Parsed e r' => parse_term_tail f (EBin Mul lhs e) r'
          | other => other
          end
      | TSlash :: r =>
          match parse_factor f r with
          | Parsed e r' => parse_term_tail f (EBin Div lhs e) r'
          | other => other
          end
      | _ => Parsed lhs ts
      end
  end
with parse_factor (fuel : nat) (ts : list token) : parsed expr :=
  match fuel with
  | O => Starved
  | S f =>
      match ts with
      | TPlus :: r =>
          match parse_factor f r with
          | Parsed e r' => Parsed (EPos e) r'
          | other => other
          end
      | TMinus :: r =>
          match parse_factor f r with
          | Parsed e r' => Parsed (ENeg e) r'
          | other => other
          end
      | TInt ds :: r =>
          match literal ds with
          | Some v => Parsed (ELit v) r
          | None => Malformed
          end
      | TFloat ip fp :: r => Parsed (ELit (float_literal ip fp)) r
      | TLPar :: r =>
          match parse_sum f r with
          | Parsed e (TRPar :: r') => Parsed e r'
          | Parsed _ _ => Malformed
          | other => other
          end
      | _ => Malformed
      end
  end.

Definition ZeroDivisionError (msg : string) : exn := Error "ZeroDivisionError" (lit msg).

Definition is_zero (f : float) : bool :=
  match f with S754_zero _ => true | _ => false end.

(** [a / b] on two [int]s: the float nearest to the quotient. *)
Definition int_truediv (a b : Z) : outcome num :=
  if b =? 0 then Raised (ZeroDivisionError "division by zero")
  else
    match float_of_ratio (xorb (a <? 0) (b <? 0)) (Z.abs a) (Z.abs b) with
    | S754_infinity _ =>
        Raised (Error "OverflowError" (lit "integer division result too large for a float"))
    | f => Returned (NFloat f)
    end.

Definition float_binop (op : binop) (x y : float) : outcome num :=
  match op with
  | Add => Returned (NFloat (SFadd 53 1024 x y))
  | Sub => Returned (NFloat (SFsub 53 1024 x y))
  | Mul => Returned (NFloat (SFmul 53 1024 x y))
  | Div =>
      if is_zero y then Raised (ZeroDivisionError "float division by zero")
      else Returned (NFloat (SFdiv 53 1024 x y))
  end.

Definition as_float (v : num) : outcome float :=
  match v with
  | NInt z => float_of_int z
  | NFloat f => Returned f
  end.

(** A binary operator on two numbers: exact on two [int]s (true division
    apart), in binary64 as soon as one operand is a [float]. *)
Definition apply_binop (op : binop) (a b : num) : outcome num :=
  match a, b with
  | NInt x, NInt y =>
      match op with
      | Add => Returned (NInt (x + y))
      | Sub => Returned (NInt (x - y))
      | Mul => Returned (NInt (x * y))
      | Div => int_truediv x y
      end
  | _, _ =>
      match as_float a with
      | Raised e => Raised e
      | Returned x =>
          match as_float b with
          | Raised e => Raised e
          | Returned y => float_binop op x y
          end
      end
  end.

Definition negate (v : num) : num :=
  match v with
  | NInt z => NInt (- z)
  | NFloat f => NFloat (SFopp f)
  end.

(** Operands are evaluated left to right; the first exception wins. *)
Fixpoint eval_expr (e : expr) : outcome num :=
  match e with
  | ELit v => Returned v
  | EPos e => eval_expr e
  | ENeg e =>
      match eval_expr e with
      | Returned v => Returned (negate v)
      | Raised x => Raised x
      end
  | EBin op l r =>
      match eval_expr l with
      | Raised x => Raised x
      | Returned a =>
          match eval_expr r with
          | Raised x => Raised x
          | Returned b => apply_binop op a b
          end
      end
  end.

Definition obj_of_num (v : num) : pyobj :=
  match v with
  | NInt z => PyInt z
  | NFloat f => PyFloat f
  end.

Definition max_arith_len : nat := 100.

(** [eval] on the fragment; [None] when the text is outside it. *)
Definition eval_arith `{Runtime} (s : pystr) : option (outcome pyobj) :=
  if (length s <=? max_arith_len)%nat then
    match lex LIdle s with
    | None => None
    | Some ts =>
        if has_call_or_tuple ts then None
        else
          match parse_sum (6 * length ts + 6) ts with
          | Starved => None
          | Parsed e [] =>
              Some (match eval_expr e with
                    | Returned v => Returned (obj_of_num v)
                    | Raised x => Raised x
                    end)
          | Parsed _ (_ :: _) | Malformed =>
              Some (Raised (Error "SyntaxError" (syntax_error_text s)))
          end
    end
  else None.

(** [eval(s)] *)
Definition eval `{Runtime} (s : pystr) : outcome pyobj :=
  match eval_arith s with
  | Some r => r
  | None => eval_other s
  end.

End Py.

(** ** [backend/context.py] *)
Module Context.
Import Py.

Definition dq : pystr := [34%N].

(** Lines of a triple-quoted literal, each closed by a newline. *)
Definition text_lines (ls : list pystr) : pystr := concat ((λ l, l ++ [10%N]) <$> ls).

Definition SECURITY_RESEARCHER_INSTRUCTIONS : pystr := text_lines [
    [];
    lit "You are a cybersecurity researcher. You are given Python code to analyze.";
    lit "You have access to a semgrep_scan tool that can help identify security vulnerabilities.";
    [];
    lit "CRITICAL REQUIREMENTS: ";
    lit "1. When using the semgrep_scan tool, you MUST ALWAYS use exactly " ++ dq ++ lit "auto" ++ dq ++ lit " (and nothing else) for the " ++ dq ++ lit "config" ++ dq ++ lit " field in each code_files entry.";
    lit "2. You MUST call the semgrep_scan tool ONLY ONCE. Do not call it multiple times with the same code.";
    [];
    lit "DO NOT use any other config values like:";
    lit "- " ++ dq ++ lit "p/sql-injection, p/python-eval" ++ dq ++ lit " (WRONG)";
    lit "- " ++ dq ++ lit "security" ++ dq ++ lit " (WRONG) ";
    lit "- " ++ dq ++ lit "python" ++ dq ++ lit " (WRONG)";
    lit "- Any rule names or patterns (WRONG)";
    [];
    lit "ONLY use: " ++ dq ++ lit "auto" ++ dq;
    [];
    lit "Correct format: {" ++ dq ++ lit "code_files" ++ dq ++ lit ": [{" ++ dq ++ lit "filename" ++ dq ++ lit ": " ++ dq ++ lit "analysis.py" ++ dq ++ lit ", " ++ dq ++ lit "content" ++ dq ++ lit ": " ++ dq ++ lit "the actual code" ++ dq ++ lit ", " ++ dq ++ lit "config" ++ dq ++ lit ": " ++ dq ++ lit "auto" ++ dq ++ lit "}]}";
    [];
    lit "IMPORTANT: Call semgrep_scan once, get the results, then proceed with your own analysis. Do not repeat the tool call.";
    [];
    lit "Your analysis process should be:";
    lit "1. First, use the semgrep_scan tool ONCE to scan the provided code (config: " ++ dq ++ lit "auto" ++ dq ++ lit ")";
    lit "2. Review and analyze the semgrep results - count how many issues semgrep found";
    lit "3. Do NOT call semgrep_scan again - you already have the results";
    lit "4. Conduct your own additional security analysis to identify issues that semgrep might have missed";
    lit "5. In your summary, clearly state: " ++ dq ++ lit "Semgrep found X issues, and I identified Y additional issues" ++ dq;
    lit "6. Combine both semgrep findings and your own analysis into a comprehensive report";
    [];
    lit "Include all severity levels: critical, high, medium, and low vulnerabilities.";
    [];
    lit "For each vulnerability found (from both semgrep and your own analysis), provide:";
    lit "- A clear title";
    lit "- Detailed description of the security issue and potential impact";
    lit "- The specific vulnerable code snippet";
    lit "- Recommended fix or mitigation";
    lit "- CVSS score (0.0-10.0)";
    lit "- Severity level (critical/high/medium/low)";
    [];
    lit "Be thorough and practical in your analysis. Don't duplicate issues between semgrep results and your own findings."
  ].

Definition get_analysis_prompt (code : pystr) : pystr :=
  lit "Please analyze the following Python code for security vulnerabilities:"
    ++ [10%N; 10%N] ++ code.

Definition enhance_summary (code_length : Z) (agent_summary : pystr) : pystr :=
  lit "Analyzed " ++ str_of_int code_length
    ++ lit " characters of Python code. " ++ agent_summary.

End Context.

(** ** [backend/mcp_servers.py] *)
Module McpServers.
Import Py.

(** The dictionary [get_semgrep_server_params] returns. *)
Record ServerParams : Type := {
  command : pystr;
  args : list pystr;
  env : gmap pystr (option pystr)
}.

(** What [create_static_tool_filter] keeps of its arguments. *)
Record ToolFilter : Type := {
  allowed_tool_names : list pystr
}.

Record MCPServerStdio : Type := {
  params : ServerParams;
  client_session_timeout_seconds : Z;
  tool_filter : ToolFilter
}.

(** [os.getenv(name)] in the process environment [environ]. *)
Definition getenv (environ : gmap pystr pystr) (name : string) : option pystr :=
  environ !! lit name.

Definition get_semgrep_server_params (environ : gmap pystr pystr) : ServerParams :=
  let semgrep_app_token := getenv environ "SEMGREP_APP_TOKEN" in
  let env : gmap pystr (option pystr) :=
    <[lit "PYTHONUNBUFFERED" := Some (lit "1")]>
      (<[lit "SEMGREP_APP_TOKEN" := semgrep_app_token]> ∅) in
  {| command := lit "uvx";
     args := [lit "--with"; lit "mcp==1.12.2"; lit "--quiet"; lit "semgrep-mcp"];
     env := env |}.

Definition create_semgrep_server (environ : gmap pystr pystr) : MCPServerStdio :=
  let params := get_semgrep_server_params environ in
  {| params := params;
     client_session_timeout_seconds := 120;
     tool_filter := {| allowed_tool_names := [lit "semgrep_scan"] |} |}.


End McpServers.

(** ** [backend/server.py] *)
Module Server.
Import Py Context McpServers.

Local Open Scope Z_scope.

Record AnalyzeRequest : Type := {
  code : pystr
}.

Record SecurityIssue : Type := {
  title : pystr;
  description : pystr;
  issue_code : pystr;
  fix_ : pystr;
  cvss_score : float;
  severity : pystr
}.

Record SecurityReport : Type := {
  summary : pystr;
  issues : list SecurityIssue
}.

Record Agent : Type := {
  name : pystr;
  instructions : pystr;
  model : pystr;
  mcp_servers : list MCPServerStdio;
  output_type : pystr
}.

(** What a request leaves behind outside the process. *)
Inductive event : Type :=
  | TraceOpened (workflow : pystr)
  | TraceClosed
  | ServerCreated (server : MCPServerStdio)
  | ServerConnected
  | ServerReleased
  | RunnerRan (agent : Agent) (input : pystr).

(** The process environment, the two collaborators of an analysis (the
    start of the Semgrep server process: [None] when it comes up; and the
    agent run, with its final output read as a [SecurityReport]) and the
    events so far, oldest first. *)
Record world : Type := {
  environ : gmap pystr pystr;
  mcp_connect : MCPServerStdio → option exn;
  runner_run : Agent → pystr → outcome SecurityReport;
  events : list event
}.

Definition emit (ev : event) : Eff world unit :=
  modify (λ w, {| environ := environ w; mcp_connect := mcp_connect w;
                  runner_run := runner_run w; events := events w ++ [ev] |}).

(** [with]: the exit action runs however the body ends. *)
Definition with_exit {A} (body : Eff world A) (exit : Eff world unit) : Eff world A :=
  λ w, let '(r, w') := body w in
       match exit w' with
       | (Returned _, w'') => (r, w'')
       | (Raised e, w'') => (Raised e, w'')
       end.

(** The origins allowed by the CORS middleware. *)
Definition cors_origins (environ : gmap pystr pystr) : list pystr :=
  let cors_origins := [lit "http://localhost:3000"; lit "http://frontend:3000"] in
  if bool_decide (getenv environ "ENVIRONMENT" = Some (lit "production"))
  then cors_origins ++ [lit "*"]
  else cors_origins.

Definition validate_request (request : AnalyzeRequest) : Eff world unit :=
  if negb (truthy (strip (code request)))
  then raise (HTTPException 400 (lit "No code provided for analysis"))
  else mret tt.

Definition check_api_keys : Eff world unit :=
  key ← gets (λ w, getenv (environ w) "OPENAI_API_KEY");
  if negb (from_option truthy false key)
  then raise (HTTPException 500 (lit "OpenAI API key not configured"))
  else mret tt.

Definition create_security_agent (semgrep_server : MCPServerStdio) : Agent :=
  {| name := lit "Security Researcher";
     instructions := SECURITY_RESEARCHER_INSTRUCTIONS;
     model := lit "gpt-4.1-mini";
     mcp_servers := [semgrep_server];
     output_type := lit "SecurityReport" |}.

Definition run_security_analysis (code : pystr) : Eff world SecurityReport :=
  emit (TraceOpened (lit "Security Researcher"));;
  with_exit
    (semgrep ← gets (λ w, create_semgrep_server (environ w));
     emit (ServerCreated semgrep);;
     started ← gets (λ w, mcp_connect w semgrep);
     match started with
     | Some e => raise e
     | None =>
         emit ServerConnected;;
         with_exit
           (let agent := create_security_agent semgrep in
            let input := get_analysis_prompt code in
            emit (RunnerRan agent input);;
            result ← gets (λ w, runner_run w agent input);
            lift result)
           (emit ServerReleased)
     end)
    (emit TraceClosed).

Definition format_analysis_response (code : pystr) (report : SecurityReport)
  : SecurityReport :=
  let enhanced_summary := enhance_summary (len code) (summary report) in
  {| summary := enhanced_summary; issues := issues report |}.

(** [POST /api/analyze] *)
Definition analyze_code (request : AnalyzeRequest) : Eff world SecurityReport :=
  validate_request request;;
  check_api_keys;;
  try_except
    (report ← run_security_analysis (code request);
     mret (format_analysis_response (code request) report))
    (λ e, raise (HTTPException 500 (lit "Analysis failed: " ++ exn_str e))).

(** [GET /health] *)
Definition health : list (pystr * pystr) :=
  [(lit "message", lit "Cybersecurity Analyzer API")].

(** *** The diagnostic endpoints *)

(** A value of a JSON answer. *)
Inductive value : Type :=
  | VBool (b : bool)
  | VInt (z : Z)
  | VStr (s : pystr).

(** An HTTP response, its body as bytes. *)
Record Response : Type := {
  status_code : Z;
  content : list N
}.

Record CompletedProcess : Type := {
  returncode : Z;
  stdout : pystr;
  stderr : pystr
}.

(** The machine the diagnostics probe: what a GET of a URL gives, what
    running a command with a timeout gives, and the commands launched so
    far. *)
Record host : Type := {
  http_get : pystr → outcome Response;
  subprocess_run : list pystr → Z → outcome CompletedProcess;
  launched : list (list pystr)
}.

(** [subprocess.run(argv, capture_output=True, text=True, timeout=t)] *)
Definition run (argv : list pystr) (timeout : Z) : Eff host CompletedProcess :=
  modify (λ h, {| http_get := http_get h; subprocess_run := subprocess_run h;
                  launched := launched h ++ [argv] |});;
  result ← gets (λ h, subprocess_run h argv timeout);
  lift result.

(** [GET /network-test] *)
Definition network_test : Eff host (gmap pystr value) :=
  try_except
    (result ← gets (λ h, http_get h (lit "https://semgrep.dev/api/v1/"));
     response ← lift result;
     mret (<[lit "response_size" := VInt (Z.of_nat (length (content response)))]>
             (<[lit "status_code" := VInt (status_code response)]>
                (<[lit "semgrep_api_reachable" := VBool true]> ∅))))
    (λ e, mret (<[lit "error" := VStr (exn_str e)]>
                  (<[lit "semgrep_api_reachable" := VBool false]> ∅))).

(** [isinstance(e, subprocess.TimeoutExpired)] *)
Definition is_TimeoutExpired (e : exn) : bool :=
  match e with
  | Error cls _ => String.eqb cls "TimeoutExpired"
  | _ => false
  end.

(** [GET /semgrep-test] *)
Definition semgrep_test : Eff host (gmap pystr value) :=
  try_except
    (install_result ← run [lit "pip"; lit "install"; lit "semgrep"] 60;
     if negb (returncode install_result =? 0) then
       mret (<[lit "error" := VStr (lit "Install failed: " ++ stderr install_result)]>
               (<[lit "semgrep_install" := VBool false]> ∅))
     else
       version_result ← run [lit "semgrep"; lit "--version"] 30;
       mret (<[lit "version_error" := VStr (stderr version_result)]>
               (<[lit "version_output" := VStr (stdout version_result)]>
                  (<[lit "version_check" := VBool (returncode version_result =? 0)]>
                     (<[lit "semgrep_install" := VBool true]> ∅)))))
    (λ e,
       if is_TimeoutExpired e then
         mret (<[lit "error" :=
                   VStr (lit "Timeout during semgrep installation or version check")]>
                 (<[lit "semgrep_install" := VBool false]> ∅))
       else
         mret (<[lit "error" := VStr (exn_str e)]>
                 (<[lit "semgrep_install" := VBool false]> ∅))).

(** Did the request reach the scanner or the agent? *)
Definition is_delegation (ev : event) : bool :=
  match ev with
  | ServerCreated _ | ServerConnected | RunnerRan _ _ => true
  | _ => false
  end.

End Server.

(** ** [airline.py] *)
Module Airline.
Import Py.

Local Open Scope Z_scope.

Definition MODEL : pystr := lit "gpt-4.1-mini".

Definition instructions : pystr :=
  lit "You are a helpful assistant for an Airline called FlightAI. "
  ++ lit "Use your tools to get ticket prices and calculate discounts. "
  ++ lit "Trips to London have a 10% discount on the price. "
  ++ lit "Always be accurate. If you don't know the answer, say so.".

Definition DB : pystr := lit "prices.db".

(** The seed dictionary, in the order it is written; its values are [int]
    literals. *)
Definition initial_ticket_prices : list (pystr * Z) :=
  [(lit "london", 799); (lit "paris", 899); (lit "tokyo", 1400); (lit "sydney", 2999)].

(** *** The SQLite file

    Table [prices (city TEXT PRIMARY KEY, price REAL)]: rows in insertion
    order, the price held as a float whatever was bound (REAL affinity). *)
Abbreviation table := (list (pystr * float)).

(** The three statements the script executes. *)
Inductive statement : Type :=
  | CreateTable
  | InsertOrIgnore (city : pystr) (price : Z)
  | SelectPrice (city : pystr).

Inductive sql_op : Type :=
  | Connect
  | Execute (s : statement)
  | Commit.

Record Agent : Type := {
  name : pystr;
  agent_instructions : pystr;
  model : pystr;
  tools : list pystr
}.

(** A failure of the storage layer: an instance of a subclass of
    [sqlite3.Error], with its message. *)
Record sqlite_error : Type := {
  error_class : string;
  error_text : pystr
}.

Definition sqlite_exn (err : sqlite_error) : exn :=
  Error (error_class err) (error_text err).

(** [disk]: the table as committed in the file, [None] while it does not
    exist.  [transaction]: the table as the open transaction sees it, if one
    is open.  [faults]: the storage failures of this run, by operation.
    [stdout]: the lines printed.  [runner_run]: the agent runtime. *)
Record world : Type := {
  disk : option table;
  transaction : option (option table);
  faults : sql_op → option sqlite_error;
  stdout : list pystr;
  runner_run : Agent → list (gmap pystr pystr) → outcome pystr
}.

Definition set_disk (d : option table) (w : world) : world :=
  {| disk := d; transaction := transaction w; faults := faults w;
     stdout := stdout w; runner_run := runner_run w |}.

Definition set_transaction (t : option (option table)) (w : world) : world :=
  {| disk := disk w; transaction := t; faults := faults w;
     stdout := stdout w; runner_run := runner_run w |}.

(** [print(line, flush=True)]; writing to standard output is taken to
    succeed. *)
Definition print (line : pystr) : Eff world unit :=
  modify (λ w, {| disk := disk w; transaction := transaction w; faults := faults w;
                  stdout := stdout w ++ [line]; runner_run := runner_run w |}).

(** The table as statements see it. *)
Definition view (w : world) : option table :=
  default (disk w) (transaction w).

Definition set_view (t : option table) (w : world) : world :=
  match transaction w with
  | Some _ => set_transaction (Some t) w
  | None => set_disk t w
  end.

Definition fail_at (op : sql_op) : Eff world unit :=
  λ w, match faults w op with
       | Some err => (Raised (sqlite_exn err), w)
       | None => (Returned tt, w)
       end.

Definition OperationalError (msg : string) : exn := Error "OperationalError" (lit msg).

(** [sqlite3.connect(DB)] *)
Definition connect : Eff world unit := fail_at Connect.

Definition has_city (city : pystr) (t : table) : bool :=
  existsb (λ r, bool_decide (r.1 = city)) t.

(** [cursor.execute(s)]; gives the rows a [SELECT] finds.  [CREATE TABLE]
    takes effect at once when no transaction is open; an [INSERT] opens one. *)
Definition execute (s : statement) : Eff world (list float) :=
  fail_at (Execute s);;
  match s with
  | CreateTable =>
      modify (λ w, match view w with
                   | None => set_view (Some []) w
                   | Some _ => w
                   end);;
      mret []
  | InsertOrIgnore city price =>
      t ← gets view;
      match t with
      | None => raise (OperationalError "no such table: prices")
      | Some rows =>
          if (- 2 ^ 63 <=? price) && (price <? 2 ^ 63) then
            modify (set_transaction
                      (Some (Some (if has_city city rows then rows
                                   else rows ++ [(city, float_of_Z price)]))));;
            mret []
          else raise (Error "OverflowError"
                        (lit "Python int too large to convert to SQLite INTEGER"))
      end
  | SelectPrice city =>
      t ← gets view;
      match t with
      | None => raise (OperationalError "no such table: prices")
      | Some rows => mret (snd <$> filter (λ r, r.1 = city) rows)
      end
  end.

(** [conn.commit()] *)
Definition commit : Eff world unit :=
  fail_at Commit;;
  modify (λ w, match transaction w with
               | Some t => set_transaction None (set_disk t w)
               | None => w
               end).

Definition rollback (w : world) : world := set_transaction None w.

(** [with sqlite3.connect(DB) as conn: body]: commit when the body ends
    normally, roll back when it raises or when that commit fails. *)
Definition with_connection {A} (body : Eff world A) : Eff world A :=
  connect;;
  ((λ w, match body w with
         | (Returned a, w') =>
             match commit w' with
             | (Returned _, w'') => (Returned a, w'')
             | (Raised e, w'') => (Raised e, rollback w'')
             end
         | (Raised e, w') => (Raised e, rollback w')
         end) : Eff world A).

(** The table set-up the script runs when it is loaded. *)
Definition seed_prices : Eff world unit :=
  with_connection
    (execute CreateTable;;
     for_each initial_ticket_prices
       (λ '(city, price), execute (InsertOrIgnore city price);; mret tt);;
     commit).

(** *** The tools *)

Definition get_ticket_price `{Runtime} (city : pystr) : Eff world pystr :=
  print (lit "TOOL CALLED: Getting price for " ++ city);;
  try_except
    (let city_normalised := lower city in
     with_connection
       (rows ← execute (SelectPrice city_normalised);
        let result := head rows in
        match result with
        | Some price => text ← lift (py_str (PyFloat price)); mret (lit "$" ++ text)
        | None => mret (lit "Not found")
        end))
    (λ e, mret (lit "Error: " ++ format_exc e)).

Definition calculate `{Runtime} (expr : pystr) : Eff world pystr :=
  print (lit "TOOL CALLED: Calculating " ++ expr);;
  try_except
    (v ← lift (eval expr); lift (py_str v))
    (λ e, mret (lit "Error: " ++ format_exc e)).

(** *** The chat function *)

(** [m[key]] on a dictionary. *)
Definition getitem (m : gmap pystr pystr) (key : string) : outcome pystr :=
  match m !! lit key with
  | Some v => Returned v
  | None => Raised (Error "KeyError" (lit "'" ++ lit key ++ lit "'"))
  end.

Definition message_dict (role content : pystr) : gmap pystr pystr :=
  <[lit "content" := content]> (<[lit "role" := role]> ∅).

(** [[{"role": m["role"], "content": m["content"]} for m in history]] *)
Fixpoint role_content (history : list (gmap pystr pystr))
  : outcome (list (gmap pystr pystr)) :=
  match history with
  | [] => Returned []
  | m :: rest =>
      match getitem m "role" with
      | Raised e => Raised e
      | Returned r =>
          match getitem m "content" with
          | Raised e => Raised e
          | Returned c =>
              match role_content rest with
              | Raised e => Raised e
              | Returned ms => Returned (message_dict r c :: ms)
              end
          end
      end
  end.

Definition chat (message : pystr) (history : list (gmap pystr pystr))
  : Eff world pystr :=
  messages ← lift (role_content history);
  let messages := messages ++ [message_dict (lit "user") message] in
  let agent := {| name := lit "FlightAI";
                  agent_instructions := instructions;
                  model := MODEL;
                  tools := [lit "get_ticket_price"; lit "calculate"] |} in
  result ← gets (λ w, runner_run w agent messages);
  lift result.

End Airline.

(** * Vocabulary of the statements *)

Module TextSpec.
Import Py.
Local Open Scope Z_scope.

(** Horner evaluation of a digit string, from an accumulator. *)
Definition horner (acc : Z) (ds : pystr) : Z :=
  fold_left (λ acc c, 10 * acc + (Z.of_N c - 48)) ds acc.


End TextSpec.

Module ServerSpec.
Import Py Context McpServers Server.

(** The size statement [enhance_summary] puts in front of a summary. *)
Definition size_statement (n : Z) : pystr :=
  lit "Analyzed " ++ str_of_int n ++ lit " characters of Python code. ".

(** Empty, or whitespace only. *)
Definition blank (s : pystr) : Prop := forallb isspace s = true.

Definition bad_request : exn :=
  HTTPException 400 (lit "No code provided for analysis").

Definition not_configured : exn :=
  HTTPException 500 (lit "OpenAI API key not configured").

(** The world with more events recorded. *)
Definition recorded (evs : list event) (w : world) : world :=
  {| environ := environ w; mcp_connect := mcp_connect w;
     runner_run := runner_run w; events := events w ++ evs |}.

(** The scanner server and the agent of an analysis in the world [w]. *)
Definition the_server (w : world) : MCPServerStdio := create_semgrep_server (environ w).

Definition the_agent (w : world) : Agent := create_security_agent (the_server w).

(** The key is configured: present and not empty. *)
Definition key_configured (w : world) : Prop :=
  ∃ key, getenv (environ w) "OPENAI_API_KEY" = Some key ∧ key ≠ [].

(** The answer of the endpoint to an exception of the analysis. *)
Definition analysis_failed (e : exn) : exn :=
  HTTPException 500 (lit "Analysis failed: " ++ exn_str e).

(** The events of an analysis that reached the agent, and of one whose
    scanner server did not start. *)
Definition full_run (w : world) (code : pystr) : list event :=
  [TraceOpened (lit "Security Researcher"); ServerCreated (the_server w);
   ServerConnected; RunnerRan (the_agent w) (get_analysis_prompt code);
   ServerReleased; TraceClosed].

Definition failed_start (w : world) : list event :=
  [TraceOpened (lit "Security Researcher"); ServerCreated (the_server w);
   TraceClosed].

End ServerSpec.

Module DiagnosticsSpec.
Import Py Server.
Local Open Scope Z_scope.

Definition pip_install : list pystr := [lit "pip"; lit "install"; lit "semgrep"].

Definition semgrep_version : list pystr := [lit "semgrep"; lit "--version"].

(** The host with more commands launched. *)
Definition launching (cmds : list (list pystr)) (h : host) : host :=
  {| http_get := http_get h; subprocess_run := subprocess_run h;
     launched := launched h ++ cmds |}.

(** What [semgrep_test] answers to an exception of a command. *)
Definition probe_failure (e : exn) : outcome (gmap pystr value) :=
  if is_Exception e then
    Returned (<[lit "error" :=
                  VStr (if is_TimeoutExpired e
                        then lit "Timeout during semgrep installation or version check"
                        else exn_str e)]>
                (<[lit "semgrep_install" := VBool false]> ∅))
  else Raised e.

End DiagnosticsSpec.

Module AirlineSpec.
Import Py Airline.
Local Open Scope Z_scope.

(** No storage failure in this run. *)
Definition no_faults (w : world) : Prop := ∀ op, faults w op = None.

(** No storage failure and no transaction left open. *)
Definition clean (w : world) : Prop := no_faults w ∧ transaction w = None.

(** The integers SQLite stores. *)
Definition int64 (z : Z) : Prop := - 2 ^ 63 <= z < 2 ^ 63.

(** What [INSERT OR IGNORE] does to the rows. *)
Definition insert_or_ignore (rows : table) (entry : pystr * Z) : table :=
  if has_city entry.1 rows then rows else rows ++ [(entry.1, float_of_Z entry.2)].

(** The rows after the seeding loop, from the rows before it. *)
Definition seed_rows (rows : table) : table :=
  foldl insert_or_ignore rows initial_ticket_prices.

(** The seed dictionary as rows of the table. *)
Definition seeded_rows : table :=
  (λ entry, (entry.1, float_of_Z entry.2)) <$> initial_ticket_prices.


(** The world once a tool has printed its line. *)
Definition printed (line : pystr) (w : world) : world := (print line w).2.

(** The price a [SELECT] for [city] gives on [rows], if any. *)
Definition lookup_price (city : pystr) (rows : table) : option float :=
  head (snd <$> filter (λ r, r.1 = city) rows).

(** The text of a lookup that went through. *)
Definition price_text (found : option float) : pystr :=
  match found with
  | Some price => lit "$" ++ float_repr price
  | None => lit "Not found"
  end.

(** The text a tool returns for an exception it caught. *)
Definition error_text_of `{Runtime} (e : exn) : pystr := lit "Error: " ++ format_exc e.

(** The agent [chat] builds. *)
Definition flight_agent : Agent :=
  {| name := lit "FlightAI";
     agent_instructions := instructions;
     model := MODEL;
     tools := [lit "get_ticket_price"; lit "calculate"] |}.

(** A history entry with both keys. *)
Definition has_role_and_content (m : gmap pystr pystr) : Prop :=
  is_Some (m !! lit "role") ∧ is_Some (m !! lit "content").

(** The message built from an entry. *)
Definition message_of (m : gmap pystr pystr) : option (gmap pystr pystr) :=
  r ← m !! lit "role"; c ← m !! lit "content"; Some (message_dict r c).

End AirlineSpec.

(** Concrete requests, machines and runtimes to run the code on. *)
Module Samples.
Import Py Server.

(** A report with no findings, and a source text of 42 characters. *)
Definition clean_report : SecurityReport :=
  {| summary := lit "No issues found."; issues := [] |}.

Definition code42 : pystr := replicate 42 120%N.

(** A server process without the API key, and one with it; their
    collaborators answer with [clean_report]. *)
Definition unconfigured : world :=
  {| environ := ∅;
     mcp_connect := λ _, None;
     runner_run := λ _ _, Returned clean_report;
     events := [] |}.

Definition configured : world :=
  {| environ := <[lit "OPENAI_API_KEY" := lit "sk-test"]> ∅;
     mcp_connect := λ _, None;
     runner_run := λ _ _, Returned clean_report;
     events := [] |}.



(** A server process whose API key is set to the empty text. *)
Definition empty_key : world :=
  {| environ := <[lit "OPENAI_API_KEY" := []]> ∅;
     mcp_connect := λ _, None;
     runner_run := λ _ _, Returned clean_report;
     events := [] |}.

(** A host where every command succeeds and the Semgrep API answers 404, and
    one without network and without [pip]. *)
Definition healthy_host : host :=
  {| http_get := λ _, Returned {| status_code := 404; content := [110; 111]%N |};
     subprocess_run :=
       λ _ _, Returned {| returncode := 0; stdout := lit "1.90.0"; stderr := [] |};
     launched := [] |}.

Definition bare_host : host :=
  {| http_get := λ _, Raised (Error "ConnectError" (lit "no route to host"));
     subprocess_run := λ _ _, Raised (Error "FileNotFoundError" (lit "pip"));
     launched := [] |}.

(** A runtime to run the tools with. *)
Definition runtime : Runtime :=
  {| format_exc := λ e, lit "Traceback (most recent call last): " ++ exn_str e;
     lower_unicode := λ s, s;
     eval_other := λ _, Raised (Error "NameError" (lit "name is not defined"));
     syntax_error_text := λ _, lit "invalid syntax" |}.


(** A chat history of two turns, the first with a key of the chat widget. *)
Definition two_turns : list (gmap pystr pystr) :=
  [<[lit "metadata" := lit "{}"]> (Airline.message_dict (lit "user") (lit "Hi"));
   Airline.message_dict (lit "assistant") (lit "Hello")].

(** A machine on which the airline script never ran, with a healthy disk. *)
Definition fresh : Airline.world :=
  {| Airline.disk := None;
     Airline.transaction := None;
     Airline.faults := λ _, None;
     Airline.stdout := [];
     Airline.runner_run := λ _ _, Returned (lit "Hello") |}.

(** The same machine once the table is set up. *)
Definition seeded : Airline.world :=
  Airline.set_disk (Some AirlineSpec.seeded_rows) fresh.

Definition disk_error : Airline.sqlite_error :=
  {| Airline.error_class := "OperationalError";
     Airline.error_text := lit "unable to open database file" |}.

(** A machine whose table already holds another price for London. *)
Definition repriced : Airline.world :=
  Airline.set_disk (Some [(lit "london", float_of_Z 500)]) fresh.

(** A chat history whose only entry lacks its content. *)
Definition no_content : list (gmap pystr pystr) :=
  [<[lit "role" := lit "user"]> ∅].

(** A machine without the table whose disk fails at commit time. *)
Definition full_disk : Airline.world :=
  {| Airline.disk := None;
     Airline.transaction := None;
     Airline.faults :=
       λ op, match op with Airline.Commit => Some disk_error | _ => None end;
     Airline.stdout := [];
     Airline.runner_run := λ _ _, Returned (lit "Hello") |}.


End Samples.

(** Symbolic execution of the airline tools. *)
Ltac run_airline :=
  cbv beta iota zeta delta
    [Airline.get_ticket_price Airline.calculate Airline.seed_prices
     Py.try_except Airline.with_connection mbind Py.eff_bind
     AirlineSpec.printed Airline.print Py.modify Airline.connect
     Airline.execute Airline.commit Airline.fail_at Py.gets Airline.view
     Py.lift Py.raise mret Py.eff_ret Airline.rollback Py.py_str
     Py.is_Exception Airline.sqlite_exn Airline.OperationalError
     Airline.faults Airline.disk Airline.transaction Airline.stdout
     Airline.runner_run Airline.set_transaction Airline.set_disk
     Airline.set_view default from_option id].

(** Lookups in a dictionary written as a chain of insertions. *)
Ltac dict_lookup :=
  repeat first
    [ rewrite lookup_insert_eq
    | rewrite lookup_insert_ne by (vm_compute; discriminate)
    | rewrite lookup_empty ].

(** * Facts and claims *)

Section text_facts.
Import Py TextSpec.

Local Open Scope Z_scope.

Lemma lstrip_blank (s : pystr) : forallb isspace s = true → lstrip s = [].
Proof.
  induction s as [|c r IH]; simpl; [done|].
  intros [Hc Hr]%andb_prop. rewrite Hc. auto.
Qed.

Lemma strip_blank (s : pystr) : forallb isspace s = true → strip s = [].
Proof. intros H. unfold strip. rewrite (lstrip_blank s H). reflexivity. Qed.

Lemma lstrip_nil_blank (s : pystr) : lstrip s = [] → forallb isspace s = true.
Proof.
  induction s as [|c r IH]; simpl; [done|].
  destruct (isspace c); [auto|discriminate].
Qed.

Lemma lstrip_suffix (s : pystr) : ∃ p, s = p ++ lstrip s ∧ forallb isspace p = true.
Proof.
  induction s as [|c r [p [Hp Hb]]]; simpl.
  - by exists [].
  - destruct (isspace c) eqn:Hc.
    + exists (c :: p). simpl. rewrite Hc, Hb. split; [congruence|done].
    + by exists [].
Qed.

Lemma strip_nil_blank (s : pystr) : strip s = [] → forallb isspace s = true.
Proof.
  unfold strip, rstrip. intros H.
  destruct (lstrip_suffix s) as [p [Hp Hb]].
  assert (Hr : lstrip (reverse (lstrip s)) = []).
  { apply (f_equal reverse) in H. by rewrite reverse_involutive in H. }
  apply lstrip_nil_blank in Hr.
  rewrite Hp, forallb_app, Hb. simpl.
  rewrite forallb_forall in Hr. apply forallb_forall.
  intros x Hx. apply Hr. apply list_elem_of_In. rewrite elem_of_reverse. by apply list_elem_of_In.
Qed.

Lemma horner_uint (d acc : Decimal.uint) :
  horner (Z.of_N (Unsigned.of_lu acc)) (lit (NilEmpty.string_of_uint d))
  = Z.of_N (Unsigned.of_lu (Decimal.revapp d acc)).
Proof.
  revert acc. induction d; intros acc; simpl; [done|..];
    (etransitivity; [|apply IHd]); f_equal; simpl Unsigned.of_lu; lia.
Qed.

Lemma digits_value_str_of_int (z : Z) : 0 <= z → digits_value (str_of_int z) = z.
Proof.
  intros Hz. destruct z as [|p|p]; [reflexivity| |lia].
  unfold str_of_int. simpl Z.to_int. simpl NilZero.string_of_int.
  unfold NilZero.string_of_uint.
  pose proof (Unsigned.to_uint_nonnil p) as Hnil.
  destruct (Pos.to_uint p) eqn:E; [done|..];
    rewrite <- E;
    change (digits_value ?s) with (horner (Z.of_N (Unsigned.of_lu Decimal.Nil)) s);
    rewrite horner_uint; change (Decimal.revapp ?d Decimal.Nil) with (Decimal.rev d);
    rewrite <- Unsigned.of_uint_alt, Unsigned.of_to; reflexivity.
Qed.

End text_facts.

Section server_facts.
Import Py TextSpec Context McpServers Server ServerSpec.
Local Open Scope Z_scope.

Lemma isdigit_string_of_uint (d : Decimal.uint) :
  forallb isdigit (lit (NilEmpty.string_of_uint d)) = true.
Proof. induction d; simpl; auto. Qed.

Lemma isdigit_str_of_int (z : Z) : 0 <= z → forallb isdigit (str_of_int z) = true.
Proof.
  intros Hz. destruct z as [|p|p]; [reflexivity| |lia].
  unfold str_of_int. simpl Z.to_int. simpl NilZero.string_of_int.
  unfold NilZero.string_of_uint.
  destruct (Pos.to_uint p) eqn:E; [reflexivity|..]; rewrite <- E;
    apply isdigit_string_of_uint.
Qed.

Lemma enhance_summary_prefix (n : Z) (s : pystr) :
  enhance_summary n s = size_statement n ++ s.
Proof. unfold enhance_summary, size_statement. by rewrite <- !app_assoc. Qed.

Lemma size_statement_nonempty (n : Z) : (0 < length (size_statement n))%nat.
Proof. unfold size_statement. rewrite length_app. simpl. lia. Qed.

Lemma validate_request_blank (request : AnalyzeRequest) (w : world) :
  blank (code request) → validate_request request w = (Raised bad_request, w).
Proof.
  intros Hb. unfold validate_request. by rewrite (strip_blank _ Hb).
Qed.

Lemma validate_request_usable (request : AnalyzeRequest) (w : world) :
  strip (code request) ≠ [] → validate_request request w = (Returned tt, w).
Proof.
  intros Hs. unfold validate_request.
  destruct (strip (code request)); [done|reflexivity].
Qed.

Lemma check_api_keys_missing (w : world) :
  getenv (environ w) "OPENAI_API_KEY" = None →
  check_api_keys w = (Raised not_configured, w).
Proof.
  intros Hk. unfold check_api_keys, mbind, eff_bind, gets. by rewrite Hk.
Qed.

Lemma analyze_code_blank (request : AnalyzeRequest) (w : world) :
  blank (code request) → analyze_code request w = (Raised bad_request, w).
Proof.
  intros Hb. unfold analyze_code, mbind, eff_bind.
  by rewrite (validate_request_blank _ _ Hb).
Qed.

Lemma analyze_code_missing_key (request : AnalyzeRequest) (w : world) :
  strip (code request) ≠ [] →
  getenv (environ w) "OPENAI_API_KEY" = None →
  analyze_code request w = (Raised not_configured, w).
Proof.
  intros Hs Hk. unfold analyze_code, mbind, eff_bind.
  rewrite (validate_request_usable _ _ Hs).
  by rewrite (check_api_keys_missing _ Hk).
Qed.

End server_facts.

Section server_claims.
Import Py TextSpec Context McpServers Server ServerSpec.
Local Open Scope Z_scope.

(** C1 (as amended): the summary of the formatted response is
    "Analyzed N characters of Python code. " followed by the delegated
    summary, where N is the length of the analysed code written in decimal
    digits; for the summary "No issues found." and a code of length 42 it is
    "Analyzed 42 characters of Python code. No issues found.". *)
Theorem C1_summary_states_code_length (code : pystr) (report : SecurityReport) :
  summary (format_analysis_response code report)
    = lit "Analyzed " ++ str_of_int (len code)
        ++ lit " characters of Python code. " ++ summary report
  ∧ forallb isdigit (str_of_int (len code)) = true
  ∧ digits_value (str_of_int (len code)) = Z.of_nat (length code)
  ∧ (length code = 42%nat → summary report = lit "No issues found." →
     summary (format_analysis_response code report)
       = lit "Analyzed 42 characters of Python code. No issues found.").
Proof.
  assert (Hlen : 0 <= len code) by (unfold len; lia).
  split; [reflexivity|].
  split; [by apply isdigit_str_of_int|].
  split; [by apply digits_value_str_of_int|].
  intros H42 Hs. unfold format_analysis_response, enhance_summary, len. simpl.
  by rewrite H42, Hs.
Qed.

Lemma C1_summary_states_code_length_witness :
  summary (format_analysis_response Samples.code42 Samples.clean_report)
    = lit "Analyzed 42 characters of Python code. No issues found.".
Proof.
  apply (C1_summary_states_code_length Samples.code42 Samples.clean_report);
    reflexivity.
Defined.

(** C1 as stated fails: for the summary "No issues found." and a code of
    length 42 the response summary is not
    "Analyzed 42 characters of code. No issues found.". *)
Lemma C1_counterexample :
  length Samples.code42 = 42%nat
  ∧ summary Samples.clean_report = lit "No issues found."
  ∧ summary (format_analysis_response Samples.code42 Samples.clean_report)
      ≠ lit "Analyzed 42 characters of code. No issues found.".
Proof. split; [reflexivity|]. split; [reflexivity|]. vm_compute. discriminate. Qed.

(** C2: a request whose code is empty or only whitespace is answered with
    HTTP 400, and nothing else happens: the world, and with it the record of
    scanner and agent events, is left as it was. *)
Theorem C2_blank_code_is_rejected_before_delegation
    (request : AnalyzeRequest) (w : world) :
  forallb isspace (code request) = true →
  analyze_code request w
    = (Raised (HTTPException 400 (lit "No code provided for analysis")), w)
  ∧ filter is_delegation (events (analyze_code request w).2)
      = filter is_delegation (events w).
Proof.
  intros Hb. rewrite (analyze_code_blank request w Hb). by split.
Qed.

Lemma C2_blank_code_is_rejected_before_delegation_witness :
  analyze_code {| code := lit "   " |} Samples.configured
    = (Raised (HTTPException 400 (lit "No code provided for analysis")),
       Samples.configured)
  ∧ filter is_delegation
      (events (analyze_code {| code := lit "   " |} Samples.configured).2)
      = filter is_delegation (events Samples.configured).
Proof.
  apply (C2_blank_code_is_rejected_before_delegation
           {| code := lit "   " |} Samples.configured).
  reflexivity.
Defined.

(** C3: for a request whose code is not blank, when OPENAI_API_KEY is not
    in the environment the endpoint answers HTTP 500 with the detail
    "OpenAI API key not configured" and the world is left as it was: no
    scanner server is created and no agent is run. *)
Theorem C3_missing_key_is_reported_before_delegation
    (request : AnalyzeRequest) (w : world) :
  strip (code request) ≠ [] →
  getenv (environ w) "OPENAI_API_KEY" = None →
  analyze_code request w
    = (Raised (HTTPException 500 (lit "OpenAI API key not configured")), w)
  ∧ filter is_delegation (events (analyze_code request w).2)
      = filter is_delegation (events w).
Proof.
  intros Hs Hk. rewrite (analyze_code_missing_key request w Hs Hk). by split.
Qed.

Lemma C3_missing_key_is_reported_before_delegation_witness :
  analyze_code {| code := lit "print(1)" |} Samples.unconfigured
    = (Raised (HTTPException 500 (lit "OpenAI API key not configured")),
       Samples.unconfigured)
  ∧ filter is_delegation
      (events (analyze_code {| code := lit "print(1)" |} Samples.unconfigured).2)
      = filter is_delegation (events Samples.unconfigured).
Proof.
  apply (C3_missing_key_is_reported_before_delegation
           {| code := lit "print(1)" |} Samples.unconfigured).
  - vm_compute. discriminate.
  - reflexivity.
Defined.

(** C8: the formatted response carries the issues of the delegated report
    unchanged, in number, order and content; only the summary differs. *)
Theorem C8_issues_are_kept_verbatim (code : pystr) (report : SecurityReport) :
  issues (format_analysis_response code report) = issues report
  ∧ (∀ i : nat, issues (format_analysis_response code report) !! i = issues report !! i)
  ∧ format_analysis_response code report
      = {| summary := enhance_summary (len code) (summary report);
           issues := issues report |}.
Proof. by repeat split. Qed.

(** C9 (as amended): the formatting is a function of the length of the code
    and of the report alone; it is not idempotent: applied to its own
    output it puts the size statement in front a second time, so the result
    differs from the first output, while the issues stay the same. *)
Theorem C9_formatting_is_pure_but_stacks (code : pystr) (report : SecurityReport) :
  (∀ code' : pystr, length code' = length code →
     format_analysis_response code' report = format_analysis_response code report)
  ∧ format_analysis_response code (format_analysis_response code report)
      = {| summary := size_statement (len code) ++ size_statement (len code)
                        ++ summary report;
           issues := issues report |}
  ∧ format_analysis_response code (format_analysis_response code report)
      ≠ format_analysis_response code report.
Proof.
  split; [|split].
  - intros code' Hl. unfold format_analysis_response, len. by rewrite Hl.
  - unfold format_analysis_response. cbn [summary issues].
    by rewrite !enhance_summary_prefix.
  - unfold format_analysis_response. cbn [summary issues].
    rewrite !enhance_summary_prefix.
    pose proof (size_statement_nonempty (len code)) as Hp.
    generalize dependent (size_statement (len code)). intros p Hp H.
    injection H as H. apply (f_equal length) in H.
    rewrite !length_app in H. lia.
Qed.

Lemma C9_formatting_is_pure_but_stacks_witness :
  format_analysis_response (replicate 42 121%N) Samples.clean_report
    = format_analysis_response Samples.code42 Samples.clean_report.
Proof.
  apply (C9_formatting_is_pure_but_stacks Samples.code42 Samples.clean_report).
  reflexivity.
Defined.

(** C9 as stated fails: applying the formatting to its own output does not
    give the same result. *)
Lemma C9_counterexample :
  format_analysis_response Samples.code42
    (format_analysis_response Samples.code42 Samples.clean_report)
  ≠ format_analysis_response Samples.code42 Samples.clean_report.
Proof. vm_compute. discriminate. Qed.

(** C10: validation comes before the credential check: a request whose code
    is blank is answered with HTTP 400 also when OPENAI_API_KEY is missing,
    although the credential check on its own answers HTTP 500 there. *)
Theorem C10_validation_precedes_credential_check
    (request : AnalyzeRequest) (w : world) :
  forallb isspace (code request) = true →
  getenv (environ w) "OPENAI_API_KEY" = None →
  check_api_keys w
    = (Raised (HTTPException 500 (lit "OpenAI API key not configured")), w)
  ∧ analyze_code request w
    = (Raised (HTTPException 400 (lit "No code provided for analysis")), w).
Proof.
  intros Hb Hk. split.
  - by apply check_api_keys_missing.
  - by apply analyze_code_blank.
Qed.

Lemma C10_validation_precedes_credential_check_witness :
  check_api_keys Samples.unconfigured
    = (Raised (HTTPException 500 (lit "OpenAI API key not configured")),
       Samples.unconfigured)
  ∧ analyze_code {| code := [] |} Samples.unconfigured
    = (Raised (HTTPException 400 (lit "No code provided for analysis")),
       Samples.unconfigured).
Proof.
  apply (C10_validation_precedes_credential_check {| code := [] |} Samples.unconfigured);
    reflexivity.
Defined.

End server_claims.

Section airline_facts.
Import Py Airline AirlineSpec.
Context `{Runtime}.
Local Open Scope Z_scope.

(** The body of [get_ticket_price], by the first operation that fails. *)
Lemma get_ticket_price_cases (city : pystr) (w : world) :
  let w1 := printed (lit "TOOL CALLED: Getting price for " ++ city) w in
  get_ticket_price city w =
    match faults w Connect return outcome pystr * world with
    | Some err => (Returned (error_text_of (sqlite_exn err)), w1)
    | None =>
        match faults w (Execute (SelectPrice (lower city))) with
        | Some err => (Returned (error_text_of (sqlite_exn err)), rollback w1)
        | None =>
            match view w with
            | None =>
                (Returned (error_text_of (OperationalError "no such table: prices")),
                 rollback w1)
            | Some rows =>
                match faults w Commit with
                | Some err => (Returned (error_text_of (sqlite_exn err)), rollback w1)
                | None => (Returned (price_text (lookup_price (lower city) rows)),
                           (commit w1).2)
                end
            end
        end
    end.
Proof.
  destruct w as [d t f out r]. run_airline.
  destruct (f Connect) as [err|]; [reflexivity|].
  destruct (f (Execute (SelectPrice (lower city)))) as [err|]; [reflexivity|].
  destruct t as [[rows|]|], d as [rows'|]; run_airline; cbn [fst snd];
    try reflexivity;
    match goal with
    | |- context [head (snd <$> filter _ ?rs)] =>
        change (head (snd <$> filter _ rs)) with (lookup_price (lower city) rs);
        destruct (lookup_price (lower city) rs)
    end;
    destruct (f Commit) as [err|]; run_airline; cbn [fst snd]; reflexivity.
Qed.

End airline_facts.

Section seeding_facts.
Import Py Airline AirlineSpec.
Local Open Scope Z_scope.

Lemma has_city_elem (c : pystr) (rows : table) :
  has_city c rows = true ↔ c ∈ rows.*1.
Proof.
  unfold has_city. rewrite existsb_exists, list_elem_of_fmap. split.
  - intros [r [Hin Hr]]. exists r. split; [by apply bool_decide_eq_true in Hr|].
    by apply list_elem_of_In.
  - intros [r [-> Hin]]. exists r. split; [by apply list_elem_of_In|].
    by apply bool_decide_eq_true.
Qed.

Lemma insert_or_ignore_keys (rows : table) (entry : pystr * Z) :
  (insert_or_ignore rows entry).*1
  = if has_city entry.1 rows then rows.*1 else rows.*1 ++ [entry.1].
Proof.
  unfold insert_or_ignore. destruct (has_city entry.1 rows); [done|].
  by rewrite fmap_app.
Qed.

Lemma insert_or_ignore_has (rows : table) (entry : pystr * Z) (c : pystr) :
  has_city c (insert_or_ignore rows entry)
  = has_city c rows || bool_decide (c = entry.1).
Proof.
  apply eq_true_iff_eq. rewrite orb_true_iff, !has_city_elem, bool_decide_eq_true.
  rewrite insert_or_ignore_keys.
  destruct (has_city entry.1 rows) eqn:E.
  - apply has_city_elem in E. split; [auto|]. intros [?| ->]; auto.
  - rewrite elem_of_app, list_elem_of_singleton. tauto.
Qed.

Lemma insert_or_ignore_NoDup (rows : table) (entry : pystr * Z) :
  NoDup rows.*1 → NoDup (insert_or_ignore rows entry).*1.
Proof.
  intros Hn. rewrite insert_or_ignore_keys.
  destruct (has_city entry.1 rows) eqn:E; [done|].
  apply NoDup_app. split; [done|]. split; [|apply NoDup_singleton].
  intros x Hx ->%list_elem_of_singleton.
  apply has_city_elem in Hx. congruence.
Qed.

Lemma foldl_insert_has (l : list (pystr * Z)) (rows : table) (c : pystr) :
  has_city c (foldl insert_or_ignore rows l)
  = has_city c rows || bool_decide (c ∈ l.*1).
Proof.
  revert rows. induction l as [|e l IH]; intros rows; cbn [foldl].
  - apply eq_true_iff_eq. rewrite orb_true_iff, bool_decide_eq_true.
    split; [auto|]. intros [?|Hc]; [done|]. by apply elem_of_nil in Hc.
  - rewrite IH, insert_or_ignore_has, <- orb_assoc. f_equal.
    apply eq_true_iff_eq.
    rewrite orb_true_iff, !bool_decide_eq_true, fmap_cons, elem_of_cons. tauto.
Qed.

Lemma foldl_insert_present (l : list (pystr * Z)) (rows : table) :
  (∀ c, c ∈ l.*1 → has_city c rows = true) →
  foldl insert_or_ignore rows l = rows.
Proof.
  induction l as [|e l IH]; intros Hall; simpl; [done|].
  assert (He : insert_or_ignore rows e = rows).
  { unfold insert_or_ignore. rewrite Hall; [done|]. simpl. apply elem_of_cons. auto. }
  rewrite He. apply IH. intros c Hc. apply Hall. simpl. apply elem_of_cons. auto.
Qed.

Lemma foldl_insert_NoDup (l : list (pystr * Z)) (rows : table) :
  NoDup rows.*1 → NoDup (foldl insert_or_ignore rows l).*1.
Proof.
  revert rows. induction l as [|e l IH]; intros rows Hn; simpl; [done|].
  apply IH. by apply insert_or_ignore_NoDup.
Qed.

Lemma seed_rows_idempotent (rows : table) : seed_rows (seed_rows rows) = seed_rows rows.
Proof.
  unfold seed_rows. apply foldl_insert_present.
  intros c Hc. rewrite foldl_insert_has.
  rewrite (bool_decide_eq_true_2 _ Hc). apply orb_true_r.
Qed.

Lemma seed_rows_fresh : seed_rows [] = seeded_rows.
Proof. reflexivity. Qed.

Lemma execute_insert_clean (w : world) (c : pystr) (p : Z) (rows : table) :
  no_faults w → view w = Some rows → int64 p →
  execute (InsertOrIgnore c p) w
  = (Returned [], set_transaction (Some (Some (insert_or_ignore rows (c, p)))) w).
Proof.
  intros Hf Hv [Hlo Hhi].
  unfold execute, fail_at, mbind, eff_bind, gets. rewrite Hf, Hv.
  assert (Hr : (- 2 ^ 63 <=? p) && (p <? 2 ^ 63) = true).
  { apply andb_true_intro. split; [by apply Z.leb_le|by apply Z.ltb_lt]. }
  rewrite Hr. reflexivity.
Qed.

Lemma for_each_insert_clean (l : list (pystr * Z)) (w : world) (rows : table) :
  no_faults w → view w = Some rows → Forall (λ e, int64 e.2) l → l ≠ [] →
  for_each l (λ '(city, price), execute (InsertOrIgnore city price);; mret tt) w
  = (Returned tt, set_transaction (Some (Some (foldl insert_or_ignore rows l))) w).
Proof.
  revert w rows. induction l as [|[c p] l IH]; intros w rows Hf Hv Hall Hne; [done|].
  apply Forall_cons in Hall as [Hp Hall]. simpl in Hp.
  cbn [for_each]. unfold mbind, eff_bind. cbv beta iota.
  rewrite (execute_insert_clean w c p rows Hf Hv Hp). cbn [mret eff_ret].
  destruct l as [|e l]; [reflexivity|].
  rewrite (IH _ (insert_or_ignore rows (c, p))); [|done|done|done|done].
  by destruct w.
Qed.

Lemma seeds_int64 : Forall (λ e : pystr * Z, int64 e.2) initial_ticket_prices.
Proof. repeat constructor; simpl; unfold int64; lia. Qed.

Lemma eff_bind_returned {W A B} (m : Eff W A) (k : A → Eff W B) (w w' : W) (a : A) :
  m w = (Returned a, w') → (m ≫= k) w = k a w'.
Proof. intros Hm. unfold mbind, eff_bind. by rewrite Hm. Qed.

Lemma eff_bind_raised {W A B} (m : Eff W A) (k : A → Eff W B) (w w' : W) (e : exn) :
  m w = (Raised e, w') → (m ≫= k) w = (Raised e, w').
Proof. intros Hm. unfold mbind, eff_bind. by rewrite Hm. Qed.

Lemma execute_create_clean (w : world) :
  no_faults w →
  execute CreateTable w
  = (Returned [], match view w with None => set_view (Some []) w | Some _ => w end).
Proof.
  intros Hf. unfold execute, fail_at, mbind, eff_bind, modify. by rewrite Hf.
Qed.

Lemma commit_clean (w : world) :
  no_faults w →
  commit w = (Returned tt, match transaction w with
                           | Some t => set_transaction None (set_disk t w)
                           | None => w
                           end).
Proof.
  intros Hf. unfold commit, fail_at, mbind, eff_bind, modify. by rewrite Hf.
Qed.

Lemma seed_prices_clean (w : world) :
  clean w →
  seed_prices w = (Returned tt, set_disk (Some (seed_rows (default [] (disk w)))) w).
Proof.
  intros [Hf Ht]. unfold seed_prices, with_connection.
  rewrite (eff_bind_returned connect _ w w tt)
    by (unfold connect, fail_at; by rewrite Hf).
  set (w1 := match view w with None => set_view (Some []) w | Some _ => w end).
  assert (Hf1 : no_faults w1)
    by (subst w1; destruct w as [[?|] ? ? ? ?]; simpl in *; by subst).
  assert (Hv1 : view w1 = Some (default [] (disk w)))
    by (subst w1; destruct w as [[?|] ? ? ? ?]; simpl in *; by subst).
  set (w2 := set_transaction (Some (Some (seed_rows (default [] (disk w))))) w1).
  assert (Hf2 : no_faults w2) by (subst w2; by destruct w1).
  rewrite (eff_bind_returned (execute CreateTable) _ w w1 [])
    by (by apply execute_create_clean).
  rewrite (eff_bind_returned _ _ w1 w2 tt)
    by (by apply for_each_insert_clean; [| |apply seeds_int64|]).
  rewrite (commit_clean w2 Hf2).
  rewrite commit_clean by (subst w2; by destruct w1).
  subst w2 w1. destruct w as [[?|] ? ? ? ?]; simpl in *; subst; reflexivity.
Qed.


End seeding_facts.

Section airline_claims.
Import Py TextSpec Airline AirlineSpec.
Context `{Runtime}.
Local Open Scope Z_scope.


Lemma lower_ascii (city : pystr) :
  forallb is_ascii city = true → lower city = ascii_lower <$> city.
Proof. intros Ha. unfold lower. by rewrite Ha. Qed.

Lemma view_clean (w : world) : clean w → view w = disk w.
Proof. intros [_ Ht]. unfold view. by rewrite Ht. Qed.



(** C5 on the code: for a seeded city in any ASCII letter case the lookup
    returns the dollar sign and the seeded value written as a float, with
    ".0" after the digits ("$799.0" for London). *)
Theorem C5_seeded_price_is_written_as_float
    (city name : pystr) (price : Z) (w : world) :
  clean w → disk w = Some seeded_rows →
  (name, price) ∈ initial_ticket_prices →
  forallb is_ascii city = true → ascii_lower <$> city = name →
  (get_ticket_price city w).1
    = Returned (lit "$" ++ str_of_int price ++ lit ".0").
Proof.
  intros Hcl Hd Hin Ha Hl.
  pose proof (get_ticket_price_cases city w) as Hc. cbv zeta in Hc. rewrite Hc.
  rewrite (view_clean w Hcl), Hd. destruct Hcl as [Hf _]. rewrite !Hf.
  rewrite (lower_ascii city Ha), Hl. cbn [fst]. f_equal.
  unfold initial_ticket_prices in Hin.
  repeat (apply elem_of_cons in Hin as [Hin|Hin];
          [injection Hin as -> ->; vm_compute; reflexivity|]).
  by apply elem_of_nil in Hin.
Qed.

End airline_claims.

Section seeding_claims.
Import Py TextSpec Airline AirlineSpec.
Local Open Scope Z_scope.


Lemma C5_seeded_price_is_written_as_float_witness :
  (@get_ticket_price Samples.runtime (lit "LoNdOn") Samples.seeded).1
    = Returned (lit "$799.0").
Proof.
  apply (@C5_seeded_price_is_written_as_float Samples.runtime
           (lit "LoNdOn") (lit "london") 799 Samples.seeded).
  - split; [intros op|]; reflexivity.
  - reflexivity.
  - apply (bool_decide_eq_true_1 _). vm_compute. reflexivity.
  - reflexivity.
  - reflexivity.
Defined.



End seeding_claims.

Section calculate_claims.
Import Py TextSpec Airline AirlineSpec.
Context `{Runtime}.


End calculate_claims.


(** * Further properties of the analyzer backend *)

Section server_properties.
Import Py TextSpec Context McpServers Server ServerSpec.
Local Open Scope Z_scope.

Lemma strip_blank_iff (s : pystr) : strip s = [] ↔ forallb isspace s = true.
Proof. split; [apply strip_nil_blank|apply strip_blank]. Qed.

Lemma validate_request_cases (request : AnalyzeRequest) (w : world) :
  validate_request request w
  = (if forallb isspace (code request) then Raised bad_request else Returned tt, w).
Proof.
  destruct (forallb isspace (code request)) eqn:Hb.
  - by apply validate_request_blank.
  - apply validate_request_usable. intros Hs.
    apply strip_blank_iff in Hs. congruence.
Qed.

Lemma forallb_false_elem (p : N → bool) (s : pystr) :
  forallb p s = false → ∃ c, c ∈ s ∧ p c = false.
Proof.
  induction s as [|c s IH]; [done|]. cbn [forallb].
  destruct (p c) eqn:Hc.
  - intros (x & Hx & Hp)%IH. exists x. split; [|done]. apply elem_of_cons. by right.
  - intros _. exists c. split; [|done]. apply elem_of_cons. by left.
Qed.

(** X1: validation accepts a request exactly when its code has a character
    that is not whitespace; otherwise it raises the HTTP 400; either way it
    changes nothing. *)
Theorem X1_validation_accepts_exactly_nonblank_code
    (request : AnalyzeRequest) (w : world) :
  (validate_request request w = (Returned tt, w)
   ↔ ∃ c, c ∈ code request ∧ isspace c = false)
  ∧ (validate_request request w
       = (Raised (HTTPException 400 (lit "No code provided for analysis")), w)
     ↔ ∀ c, c ∈ code request → isspace c = true).
Proof.
  rewrite validate_request_cases.
  destruct (forallb isspace (code request)) eqn:Hb.
  - rewrite forallb_forall in Hb. split.
    + split; [done|]. intros (c & Hc & Hs).
      apply list_elem_of_In, Hb in Hc. congruence.
    + split; [|done]. intros _ c Hc. by apply Hb, list_elem_of_In.
  - split.
    + split; [|done]. intros _. by apply forallb_false_elem.
    + split; [done|]. intros Hall. apply not_true_iff_false in Hb.
      destruct Hb. apply forallb_forall. intros c Hc. by apply Hall, list_elem_of_In.
Qed.

Lemma check_api_keys_configured (w : world) :
  key_configured w → check_api_keys w = (Returned tt, w).
Proof.
  intros [key [Hk Hne]]. unfold check_api_keys, mbind, eff_bind, gets.
  rewrite Hk. simpl. by destruct key.
Qed.

Lemma check_api_keys_empty (w : world) :
  getenv (environ w) "OPENAI_API_KEY" = Some [] →
  check_api_keys w = (Raised not_configured, w).
Proof.
  intros Hk. unfold check_api_keys, mbind, eff_bind, gets. by rewrite Hk.
Qed.

Lemma analyze_code_empty_key (request : AnalyzeRequest) (w : world) :
  forallb isspace (code request) = false →
  getenv (environ w) "OPENAI_API_KEY" = Some [] →
  analyze_code request w = (Raised not_configured, w).
Proof.
  intros Hb Hk. unfold analyze_code, mbind, eff_bind.
  by rewrite validate_request_cases, Hb, (check_api_keys_empty w Hk).
Qed.

(** X2: an API key that is set to the empty text counts as missing: the
    endpoint answers HTTP 500 "OpenAI API key not configured" to a request
    with usable code, and delegates nothing. *)
Theorem X2_empty_key_counts_as_missing (request : AnalyzeRequest) (w : world) :
  forallb isspace (code request) = false →
  getenv (environ w) "OPENAI_API_KEY" = Some [] →
  analyze_code request w
  = (Raised (HTTPException 500 (lit "OpenAI API key not configured")), w).
Proof. apply analyze_code_empty_key. Qed.

Lemma X2_empty_key_counts_as_missing_witness :
  analyze_code {| code := lit "print(1)" |} Samples.empty_key
  = (Raised (HTTPException 500 (lit "OpenAI API key not configured")),
     Samples.empty_key).
Proof.
  apply (X2_empty_key_counts_as_missing {| code := lit "print(1)" |} Samples.empty_key);
    reflexivity.
Defined.

Lemma emit_recorded (ev : event) (w : world) :
  emit ev w = (Returned tt, recorded [ev] w).
Proof. reflexivity. Qed.

Lemma recorded_recorded (a b : list event) (w : world) :
  recorded b (recorded a w) = recorded (a ++ b) w.
Proof. unfold recorded. simpl. by rewrite app_assoc. Qed.

Lemma recorded_fields (evs : list event) (w : world) :
  environ (recorded evs w) = environ w
  ∧ mcp_connect (recorded evs w) = mcp_connect w
  ∧ runner_run (recorded evs w) = runner_run w.
Proof. by repeat split. Qed.

Ltac run_server :=
  repeat (progress (cbv beta iota;
                    rewrite ?emit_recorded, ?recorded_recorded,
                      ?(λ evs w, proj1 (recorded_fields evs w)),
                      ?(λ evs w, proj1 (proj2 (recorded_fields evs w))),
                      ?(λ evs w, proj2 (proj2 (recorded_fields evs w))))).

Lemma run_security_analysis_cases (code : pystr) (w : world) :
  run_security_analysis code w =
    match mcp_connect w (the_server w) with
    | Some e => (Raised e, recorded (failed_start w) w)
    | None =>
        (runner_run w (the_agent w) (get_analysis_prompt code),
         recorded (full_run w code) w)
    end.
Proof.
  unfold run_security_analysis, failed_start, full_run, the_agent, the_server.
  unfold with_exit, mbind, eff_bind, gets, lift, raise. run_server.
  destruct (mcp_connect w (create_semgrep_server (environ w))) as [e|]; run_server.
  - reflexivity.
  - destruct (runner_run w _ _) as [r|e]; run_server; reflexivity.
Qed.


Lemma analyze_code_delegates (request : AnalyzeRequest) (w : world) :
  forallb isspace (code request) = false → key_configured w →
  analyze_code request w =
    match mcp_connect w (the_server w) with
    | Some e =>
        (Raised (if is_Exception e then analysis_failed e else e),
         recorded (failed_start w) w)
    | None =>
        match runner_run w (the_agent w) (get_analysis_prompt (code request)) with
        | Returned report =>
            (Returned (format_analysis_response (code request) report),
             recorded (full_run w (code request)) w)
        | Raised e =>
            (Raised (if is_Exception e then analysis_failed e else e),
             recorded (full_run w (code request)) w)
        end
    end.
Proof.
  intros Hb Hk. unfold analyze_code, mbind, eff_bind.
  rewrite validate_request_cases, Hb, (check_api_keys_configured w Hk).
  unfold try_except, mbind, eff_bind.
  rewrite (run_security_analysis_cases (code request) w).
  unfold analysis_failed, raise, mret, eff_ret.
  destruct (mcp_connect w (the_server w)) as [e|].
  - by destruct (is_Exception e).
  - destruct (runner_run w _ _) as [report|e]; [reflexivity|].
    by destruct (is_Exception e).
Qed.


Lemma configured_key : key_configured Samples.configured.
Proof. exists (lit "sk-test"). split; [reflexivity|discriminate]. Qed.




(** X6: whatever the request and the world, the endpoint returns a report,
    or raises an [HTTPException] whose status is 400 or 500, or lets through
    an exception that is not an [Exception]; no other exception leaves it. *)
Theorem X6_endpoint_raises_only_400_or_500 (request : AnalyzeRequest) (w : world) :
  match (analyze_code request w).1 with
  | Returned _ => True
  | Raised (HTTPException status _) => status = 400 ∨ status = 500
  | Raised (Error _ _) => False
  | Raised (Exit _ _) => True
  end.
Proof.
  destruct (forallb isspace (code request)) eqn:Hb.
  { rewrite (analyze_code_blank request w Hb). simpl. auto. }
  destruct (getenv (environ w) "OPENAI_API_KEY") as [[|c key]|] eqn:Hk.
  - rewrite (analyze_code_empty_key request w Hb Hk). simpl. auto.
  - rewrite (analyze_code_delegates request w Hb); [|by exists (c :: key)].
    destruct (mcp_connect w (the_server w)) as [e|].
    + destruct e; simpl; auto.
    + destruct (runner_run w _ _) as [r|e]; [done|]. destruct e; simpl; auto.
  - rewrite analyze_code_missing_key; [simpl; auto| |done].
    intros Hs. apply strip_blank_iff in Hs. congruence.
Qed.



(** X8: the CORS origins always hold the two development origins, and hold
    the wildcard exactly when ENVIRONMENT is "production". *)
Theorem X8_wildcard_origin_only_in_production (environ : gmap pystr pystr) :
  (lit "*" ∈ cors_origins environ
   ↔ getenv environ "ENVIRONMENT" = Some (lit "production"))
  ∧ lit "http://localhost:3000" ∈ cors_origins environ
  ∧ lit "http://frontend:3000" ∈ cors_origins environ.
Proof.
  unfold cors_origins. case_bool_decide as Hp.
  - split; [|split].
    + split; [done|]. intros _. rewrite elem_of_app, list_elem_of_singleton. by right.
    + apply elem_of_app. left. apply elem_of_cons. by left.
    + apply elem_of_app. left. apply elem_of_cons. right. apply elem_of_cons. by left.
  - split; [|split].
    + split; [|done]. intros Hin.
      repeat (apply elem_of_cons in Hin as [Hin|Hin]; [by vm_compute in Hin|]).
      by apply elem_of_nil in Hin.
    + apply elem_of_cons. by left.
    + apply elem_of_cons. right. apply elem_of_cons. by left.
Qed.

End server_properties.

Section diagnostics_properties.
Import Py Server DiagnosticsSpec.
Local Open Scope Z_scope.

Lemma run_cases (argv : list pystr) (timeout : Z) (h : host) :
  run argv timeout h = (subprocess_run h argv timeout, launching [argv] h).
Proof.
  unfold run, mbind, eff_bind, modify, gets, lift. cbn [subprocess_run].
  by destruct (subprocess_run h argv timeout).
Qed.

Lemma launching_launching (a b : list (list pystr)) (h : host) :
  launching b (launching a h) = launching (a ++ b) h.
Proof. unfold launching. simpl. by rewrite app_assoc. Qed.

Lemma semgrep_test_cases (h : host) :
  semgrep_test h =
    match subprocess_run h pip_install 60 with
    | Raised e => (probe_failure e, launching [pip_install] h)
    | Returned installed =>
        if returncode installed =? 0 then
          match subprocess_run h semgrep_version 30 with
          | Raised e => (probe_failure e, launching [pip_install; semgrep_version] h)
          | Returned version =>
              (Returned (<[lit "version_error" := VStr (stderr version)]>
                          (<[lit "version_output" := VStr (stdout version)]>
                             (<[lit "version_check" := VBool (returncode version =? 0)]>
                                (<[lit "semgrep_install" := VBool true]> ∅)))),
               launching [pip_install; semgrep_version] h)
          end
        else
          (Returned (<[lit "error" := VStr (lit "Install failed: " ++ stderr installed)]>
                      (<[lit "semgrep_install" := VBool false]> ∅)),
           launching [pip_install] h)
    end.
Proof.
  unfold semgrep_test, try_except, mbind, eff_bind. rewrite run_cases.
  fold pip_install. unfold probe_failure.
  destruct (subprocess_run h pip_install 60) as [installed|e].
  - destruct (returncode installed =? 0); cbn [negb]; [|reflexivity].
    rewrite run_cases, launching_launching. fold semgrep_version.
    cbn [subprocess_run launching].
    destruct (subprocess_run h semgrep_version 30) as [version|e]; [reflexivity|].
    destruct (is_Exception e); [|reflexivity]. by destruct (is_TimeoutExpired e).
  - destruct (is_Exception e); [|reflexivity]. by destruct (is_TimeoutExpired e).
Qed.

(** X9: an answer of the Semgrep diagnostic always has the key
    semgrep_install, and holds [true] there exactly when [pip install
    semgrep] exited with code 0 and [semgrep --version] ran to its end; the
    exit code of the version command only shows in version_check. *)
Theorem X9_semgrep_test_reports_install (h : host) (answer : gmap pystr value) :
  (semgrep_test h).1 = Returned answer →
  (∃ ok, answer !! lit "semgrep_install" = Some (VBool ok))
  ∧ (answer !! lit "semgrep_install" = Some (VBool true)
     ↔ ∃ installed version,
         subprocess_run h pip_install 60 = Returned installed
         ∧ returncode installed = 0
         ∧ subprocess_run h semgrep_version 30 = Returned version
         ∧ answer !! lit "version_check" = Some (VBool (returncode version =? 0))).
Proof.
  rewrite semgrep_test_cases. unfold probe_failure.
  destruct (subprocess_run h pip_install 60) as [installed|e] eqn:Hi.
  - destruct (returncode installed =? 0) eqn:Hz.
    + apply Z.eqb_eq in Hz.
      destruct (subprocess_run h semgrep_version 30) as [version|e] eqn:Hv.
      * intros [= <-]. dict_lookup. split; [by eexists|].
        split; [|done]. intros _. exists installed, version. by dict_lookup.
      * cbn [fst]. destruct (is_Exception e); [|done]. intros [= <-]. dict_lookup.
        split; [by eexists|]. split; [done|]. by intros (?&?&?&?&?&?).
    + apply Z.eqb_neq in Hz. intros [= <-]. dict_lookup.
      split; [by eexists|]. split; [done|].
      intros (i&v&[= <-]&?&?). done.
  - cbn [fst]. destruct (is_Exception e); [|done]. intros [= <-]. dict_lookup.
    split; [by eexists|]. split; [done|]. by intros (?&?&?&?).
Qed.

Lemma X9_semgrep_test_reports_install_witness :
  ∃ ok, (semgrep_test Samples.bare_host).1
        = Returned (<[lit "error" := VStr (lit "pip")]>
                      (<[lit "semgrep_install" := VBool false]> ∅))
        ∧ (<[lit "error" := VStr (lit "pip")]>
             (<[lit "semgrep_install" := VBool false]> (∅ : gmap pystr value)))
            !! lit "semgrep_install" = Some (VBool ok).
Proof.
  destruct (X9_semgrep_test_reports_install Samples.bare_host
              (<[lit "error" := VStr (lit "pip")]>
                 (<[lit "semgrep_install" := VBool false]> ∅)))
    as [[ok Hok] _]; [reflexivity|].
  exists ok. split; [reflexivity|exact Hok].
Defined.

(** X10: the diagnostic launches [pip install semgrep] first, and launches
    [semgrep --version] after it exactly when the installation returned
    with exit code 0; it launches nothing else. *)
Theorem X10_version_check_only_after_install (h : host) :
  launched (semgrep_test h).2
  = launched h ++ pip_install
      :: match subprocess_run h pip_install 60 with
         | Returned installed =>
             if returncode installed =? 0 then [semgrep_version] else []
         | Raised _ => []
         end.
Proof.
  rewrite semgrep_test_cases.
  destruct (subprocess_run h pip_install 60) as [installed|e]; [|reflexivity].
  destruct (returncode installed =? 0); [|reflexivity].
  by destruct (subprocess_run h semgrep_version 30).
Qed.

(** X11: no [Exception] leaves the two diagnostic endpoints: a failing
    command or request is reported in the answer. *)
Theorem X11_diagnostics_raise_no_error (h : host) (cls : string) (msg : pystr) :
  (semgrep_test h).1 ≠ Raised (Error cls msg)
  ∧ (∀ status detail, (semgrep_test h).1 ≠ Raised (HTTPException status detail))
  ∧ (network_test h).1 ≠ Raised (Error cls msg)
  ∧ (∀ status detail, (network_test h).1 ≠ Raised (HTTPException status detail)).
Proof.
  assert (Hs : ∀ e, is_Exception e = true → (semgrep_test h).1 ≠ Raised e).
  { intros x Hx. rewrite semgrep_test_cases. unfold probe_failure.
    destruct (subprocess_run h pip_install 60) as [installed|e].
    - destruct (returncode installed =? 0); [|done].
      destruct (subprocess_run h semgrep_version 30) as [version|e]; [done|].
      cbn [fst]. destruct (is_Exception e) eqn:He; [done|]. congruence.
    - cbn [fst]. destruct (is_Exception e) eqn:He; [done|]. congruence. }
  assert (Hn : ∀ e, is_Exception e = true → (network_test h).1 ≠ Raised e).
  { intros x Hx. unfold network_test, try_except, mbind, eff_bind, gets, lift.
    destruct (http_get h _) as [r|e]; [done|].
    destruct (is_Exception e) eqn:He; [done|]. cbn [fst]. congruence. }
  split; [by apply Hs|]. split; [intros; by apply Hs|].
  split; [by apply Hn|]. intros; by apply Hn.
Qed.

(** X12: the network diagnostic leaves the host as it is; it answers
    semgrep_api_reachable [true], with the status code and the number of
    bytes of the body, as soon as a response arrives, whatever its status
    code; and [false], with the text of the exception, when the request
    raises an [Exception]. *)
Theorem X12_network_test_reachability (h : host) :
  (∀ response, http_get h (lit "https://semgrep.dev/api/v1/") = Returned response →
     ∃ answer, network_test h = (Returned answer, h)
       ∧ answer !! lit "semgrep_api_reachable" = Some (VBool true)
       ∧ answer !! lit "status_code" = Some (VInt (status_code response))
       ∧ answer !! lit "response_size"
           = Some (VInt (Z.of_nat (length (content response)))))
  ∧ (∀ e, http_get h (lit "https://semgrep.dev/api/v1/") = Raised e →
     is_Exception e = true →
     ∃ answer, network_test h = (Returned answer, h)
       ∧ answer !! lit "semgrep_api_reachable" = Some (VBool false)
       ∧ answer !! lit "error" = Some (VStr (exn_str e))).
Proof.
  unfold network_test, try_except, mbind, eff_bind, gets, lift. split.
  - intros response ->. eexists. split; [reflexivity|]. by dict_lookup.
  - intros e -> ->. eexists. split; [reflexivity|]. by dict_lookup.
Qed.

Lemma X12_network_test_reachability_witness :
  (∃ answer, network_test Samples.healthy_host = (Returned answer, Samples.healthy_host)
     ∧ answer !! lit "semgrep_api_reachable" = Some (VBool true)
     ∧ answer !! lit "status_code" = Some (VInt 404)
     ∧ answer !! lit "response_size" = Some (VInt 2))
  ∧ (∃ answer, network_test Samples.bare_host = (Returned answer, Samples.bare_host)
     ∧ answer !! lit "semgrep_api_reachable" = Some (VBool false)
     ∧ answer !! lit "error" = Some (VStr (lit "no route to host"))).
Proof.
  split.
  - apply (proj1 (X12_network_test_reachability Samples.healthy_host)
             {| status_code := 404; content := [110; 111]%N |}).
    reflexivity.
  - apply (proj2 (X12_network_test_reachability Samples.bare_host)
             (Error "ConnectError" (lit "no route to host"))); reflexivity.
Defined.

End diagnostics_properties.

(** * Further properties of the airline assistant *)

Section seeding_properties.
Import Py TextSpec Airline AirlineSpec.
Local Open Scope Z_scope.

Lemma foldl_insert_extends (l : list (pystr * Z)) (rows : table) :
  ∃ added, foldl insert_or_ignore rows l = rows ++ added.
Proof.
  revert rows. induction l as [|e l IH]; intros rows; cbn [foldl].
  - exists []. by rewrite app_nil_r.
  - destruct (IH (insert_or_ignore rows e)) as [added Ha]. rewrite Ha.
    unfold insert_or_ignore. destruct (has_city e.1 rows).
    + by exists added.
    + eexists. by rewrite <- app_assoc.
Qed.

Lemma lookup_price_app (city : pystr) (rows added : table) :
  city ∈ rows.*1 → lookup_price city (rows ++ added) = lookup_price city rows.
Proof.
  unfold lookup_price. induction rows as [|[c p] rows IH]; intros Hin.
  - by apply elem_of_nil in Hin.
  - rewrite fmap_cons in Hin. cbn [app]. rewrite !filter_cons.
    destruct (decide ((c, p).1 = city)) as [Heq|Hne]; [reflexivity|].
    apply IH. apply elem_of_cons in Hin as [->|Hin]; [by destruct Hne|done].
Qed.

(** X13: seeding a table that already has rows (with distinct cities, as the
    primary key ensures) keeps every price already there, also for a seeded
    city; adds the seeded cities that are missing; keeps the cities
    distinct; and a second seeding changes nothing. *)
Theorem X13_seeding_keeps_existing_prices (w : world) (rows : table) :
  clean w → disk w = Some rows → NoDup rows.*1 →
  seed_prices w = (Returned tt, set_disk (Some (seed_rows rows)) w)
  ∧ (∀ city, city ∈ rows.*1 →
       lookup_price city (seed_rows rows) = lookup_price city rows)
  ∧ NoDup (seed_rows rows).*1
  ∧ (∀ city, city ∈ initial_ticket_prices.*1 → city ∈ (seed_rows rows).*1)
  ∧ seed_prices (set_disk (Some (seed_rows rows)) w)
      = (Returned tt, set_disk (Some (seed_rows rows)) w).
Proof.
  intros Hc Hd Hn. split; [|split; [|split; [|split]]].
  - rewrite (seed_prices_clean w Hc), Hd. reflexivity.
  - intros city Hin. unfold seed_rows.
    destruct (foldl_insert_extends initial_ticket_prices rows) as [added ->].
    by apply lookup_price_app.
  - by apply foldl_insert_NoDup.
  - intros city Hin. apply has_city_elem. unfold seed_rows.
    rewrite foldl_insert_has, (bool_decide_eq_true_2 _ Hin). apply orb_true_r.
  - rewrite seed_prices_clean.
    + cbn [disk set_disk default from_option id]. rewrite seed_rows_idempotent.
      by destruct w.
    + destruct Hc as [Hf Ht]. split; [exact Hf|exact Ht].
Qed.

Lemma X13_seeding_keeps_existing_prices_witness :
  lookup_price (lit "london") (seed_rows [(lit "london", float_of_Z 500)])
  = lookup_price (lit "london") [(lit "london", float_of_Z 500)].
Proof.
  destruct (X13_seeding_keeps_existing_prices Samples.repriced
              [(lit "london", float_of_Z 500)]) as (_ & Hkeep & _).
  - split; [intros op|]; reflexivity.
  - reflexivity.
  - apply (bool_decide_eq_true_1 _). vm_compute. reflexivity.
  - apply Hkeep. apply (bool_decide_eq_true_1 _). vm_compute. reflexivity.
Defined.

Lemma execute_insert_any (w : world) (c : pystr) (p : Z) (rows : table) :
  view w = Some rows → int64 p →
  execute (InsertOrIgnore c p) w =
    match faults w (Execute (InsertOrIgnore c p)) with
    | Some err => (Raised (sqlite_exn err), w)
    | None =>
        (Returned [], set_transaction (Some (Some (insert_or_ignore rows (c, p)))) w)
    end.
Proof.
  intros Hv [Hlo Hhi]. unfold execute, fail_at, mbind, eff_bind, gets.
  destruct (faults w _); [reflexivity|]. rewrite Hv.
  assert (Hr : (- 2 ^ 63 <=? p) && (p <? 2 ^ 63) = true).
  { apply andb_true_intro. split; [by apply Z.leb_le|by apply Z.ltb_lt]. }
  by rewrite Hr.
Qed.

(** The seeding loop touches the open transaction only. *)
Lemma for_each_insert_any (l : list (pystr * Z)) (w : world) (rows : table) :
  view w = Some rows → Forall (λ e, int64 e.2) l →
  ∃ r t, for_each l (λ '(city, price), execute (InsertOrIgnore city price);; mret tt) w
         = (r, set_transaction t w)
         ∧ (r = Returned tt →
            view (set_transaction t w) = Some (foldl insert_or_ignore rows l)).
Proof.
  revert w rows. induction l as [|[c p] l IH]; intros w rows Hv Hall.
  - exists (Returned tt), (transaction w). split; [by destruct w|].
    intros _. by destruct w.
  - apply Forall_cons in Hall as [Hp Hall]. simpl in Hp.
    cbn [for_each]. unfold mbind, eff_bind. cbv beta iota.
    rewrite (execute_insert_any w c p rows Hv Hp).
    destruct (faults w _) as [err|].
    + exists (Raised (sqlite_exn err)), (transaction w). split; [by destruct w|done].
    + cbn [mret eff_ret].
      destruct (IH (set_transaction (Some (Some (insert_or_ignore rows (c, p)))) w)
                  (insert_or_ignore rows (c, p))) as (r & t & Hr & Hok); [done|done|].
      exists r, t. unfold mbind, eff_bind in Hr. rewrite Hr. split; [by destruct w|].
      intros Hret. specialize (Hok Hret). by destruct w.
Qed.

Lemma execute_create_any (w : world) :
  execute CreateTable w =
    match faults w (Execute CreateTable) with
    | Some err => (Raised (sqlite_exn err), w)
    | None => (Returned [], match view w with
                            | None => set_view (Some []) w
                            | Some _ => w
                            end)
    end.
Proof.
  unfold execute, fail_at, mbind, eff_bind, modify. by destruct (faults w _).
Qed.

Lemma commit_any (w : world) :
  commit w =
    match faults w Commit with
    | Some err => (Raised (sqlite_exn err), w)
    | None => (Returned tt, match transaction w with
                            | Some t => set_transaction None (set_disk t w)
                            | None => w
                            end)
    end.
Proof.
  unfold commit, fail_at, mbind, eff_bind, modify. by destruct (faults w _).
Qed.

(** X14: seeding is all or nothing, whatever storage operation fails.  It
    leaves no transaction open and prints nothing; when it returns, the
    table holds the rows it had plus the missing seeded cities; when it
    raises, the table is as it was, or, if it did not exist, exists and is
    empty: no part of the seed is kept. *)
Theorem X14_seeding_is_all_or_nothing (w : world) :
  transaction w = None →
  transaction (seed_prices w).2 = None
  ∧ stdout (seed_prices w).2 = stdout w
  ∧ match (seed_prices w).1 with
    | Returned _ => disk (seed_prices w).2 = Some (seed_rows (default [] (disk w)))
    | Raised _ =>
        disk (seed_prices w).2 = disk w
        ∨ (disk w = None ∧ disk (seed_prices w).2 = Some [])
    end.
Proof.
  intros Ht. destruct w as [d t f out r]. simpl in Ht. subst t.
  set (w := {| disk := d; transaction := None; faults := f; stdout := out;
               runner_run := r |}).
  unfold seed_prices, with_connection.
  destruct (f Connect) as [err|] eqn:HC.
  { rewrite (eff_bind_raised connect _ w w (sqlite_exn err))
      by (unfold connect, fail_at; cbn [faults w]; by rewrite HC).
    cbn [fst snd]. auto. }
  rewrite (eff_bind_returned connect _ w w tt)
    by (unfold connect, fail_at; cbn [faults w]; by rewrite HC).
  pose proof (execute_create_any w) as Hcreate. cbn [faults w] in Hcreate.
  destruct (f (Execute CreateTable)) as [err|] eqn:HE.
  { rewrite (eff_bind_raised (execute CreateTable) _ w w (sqlite_exn err)) by done.
    cbn [fst snd]. simpl. auto. }
  set (w1 := {| disk := Some (default [] d); transaction := None; faults := f;
                stdout := out; runner_run := r |}).
  assert (Hw1 : match view w with None => set_view (Some []) w | Some _ => w end = w1)
    by (subst w w1; by destruct d).
  rewrite Hw1 in Hcreate.
  rewrite (eff_bind_returned (execute CreateTable) _ w w1 []) by done.
  destruct (for_each_insert_any initial_ticket_prices w1 (default [] d) eq_refl seeds_int64)
    as (r2 & t2 & Hr2 & Hok).
  destruct r2 as [[]|e].
  - rewrite (eff_bind_returned _ _ w1 (set_transaction t2 w1) tt) by exact Hr2.
    specialize (Hok eq_refl). rewrite commit_any. cbn [faults set_transaction w1].
    destruct (f Commit) as [err|] eqn:HM.
    + cbn [fst snd]. simpl. destruct d; auto.
    + rewrite commit_any.
      destruct t2 as [t2|]; simpl in Hok; subst; simpl; rewrite HM; simpl; auto.
  - rewrite (eff_bind_raised _ _ w1 (set_transaction t2 w1) e) by exact Hr2.
    cbn [fst snd]. simpl. destruct d; auto.
Qed.

Lemma X14_seeding_is_all_or_nothing_witness :
  (seed_prices Samples.full_disk).1 = Raised (sqlite_exn Samples.disk_error)
  ∧ transaction (seed_prices Samples.full_disk).2 = None
  ∧ disk (seed_prices Samples.full_disk).2 = Some [].
Proof.
  split; [reflexivity|]. split; [|reflexivity].
  apply (X14_seeding_is_all_or_nothing Samples.full_disk). reflexivity.
Defined.

End seeding_properties.

Section tool_properties.
Import Py TextSpec Airline AirlineSpec.
Context `{Runtime}.
Local Open Scope Z_scope.


Lemma ascii_lower_idemp (c : N) : ascii_lower (ascii_lower c) = ascii_lower c.
Proof.
  unfold ascii_lower.
  destruct ((65 <=? c) && (c <=? 90))%N eqn:E; [|by rewrite E].
  apply andb_prop in E as [E1 E2]. apply N.leb_le in E1, E2.
  assert (E3 : ((c + 32 <=? 90) = false)%N) by (apply N.leb_gt; lia).
  by rewrite E3, andb_false_r.
Qed.

Lemma ascii_lower_is_ascii (c : N) : is_ascii c = true → is_ascii (ascii_lower c) = true.
Proof.
  unfold is_ascii, ascii_lower. intros Hc. apply N.ltb_lt in Hc.
  destruct ((65 <=? c) && (c <=? 90))%N eqn:E; apply N.ltb_lt; [|done].
  apply andb_prop in E as [E1 E2]. apply N.leb_le in E2. lia.
Qed.

Lemma lower_idemp_ascii (city : pystr) :
  forallb is_ascii city = true → lower (lower city) = lower city.
Proof.
  intros Ha. rewrite (lower_ascii city Ha).
  rewrite lower_ascii.
  - rewrite <- list_fmap_compose. apply list_fmap_ext. intros _ c _. simpl.
    apply ascii_lower_idemp.
  - clear -Ha. induction city as [|c city IH]; [done|].
    simpl in Ha. apply andb_prop in Ha as [Hc Ha].
    rewrite fmap_cons. cbn [forallb]. rewrite (ascii_lower_is_ascii c Hc). by apply IH.
Qed.

(** X16: on ASCII names the price lookup does not see letter case: a city
    and its lower-cased spelling get the same text, in every state of the
    storage. *)
Theorem X16_price_lookup_ignores_ascii_case (city : pystr) (w : world) :
  forallb is_ascii city = true →
  (get_ticket_price city w).1 = (get_ticket_price (ascii_lower <$> city) w).1.
Proof.
  intros Ha.
  pose proof (get_ticket_price_cases city w) as Hc. cbv zeta in Hc. rewrite Hc.
  pose proof (get_ticket_price_cases (ascii_lower <$> city) w) as Hl.
  cbv zeta in Hl. rewrite Hl.
  rewrite <- (lower_ascii city Ha), (lower_idemp_ascii city Ha).
  destruct (faults w Connect); [done|]. destruct (faults w (Execute _)); [done|].
  destruct (view w); [|done]. by destruct (faults w Commit).
Qed.


Lemma role_content_ok (history : list (gmap pystr pystr)) :
  Forall has_role_and_content history →
  ∃ ms, role_content history = Returned ms
        ∧ Forall2 (λ m built, message_of m = Some built) history ms.
Proof.
  induction 1 as [|m history [[r Hr] [c Hc]] _ (ms & Hms & Hall)].
  - by exists [].
  - exists (message_dict r c :: ms). cbn [role_content]. unfold getitem.
    rewrite Hr, Hc, Hms. split; [done|]. constructor; [|done].
    unfold message_of. by rewrite Hr, Hc.
Qed.

Lemma role_content_missing (history : list (gmap pystr pystr)) :
  ¬ Forall has_role_and_content history →
  ∃ key : string, (key = "role"%string ∨ key = "content"%string)
         ∧ role_content history
           = Raised (Error "KeyError" (lit "'" ++ lit key ++ lit "'")).
Proof.
  induction history as [|m history IH]; intros Hn.
  - destruct Hn. constructor.
  - cbn [role_content]. unfold getitem.
    destruct (m !! lit "role") as [r|] eqn:Hr; [|exists "role"%string; auto].
    destruct (m !! lit "content") as [c|] eqn:Hc; [|exists "content"%string; auto].
    destruct IH as (key & Hk & ->); [|by exists key].
    intros Hall. apply Hn. constructor; [|done]. split; by eexists.
Qed.

(** X18: when every entry of the history has a role and a content, [chat]
    runs the FlightAI agent, with its two tools, on the entries in order,
    each cut down to its role and content, followed by the new message as
    the user's, and gives what the run gives; when an entry lacks one of the
    two, [chat] raises a [KeyError] for it.  A message so built has the keys
    role and content and no other. *)
Theorem X18_chat_sends_history_then_message
    (message : pystr) (history : list (gmap pystr pystr)) (w : world) :
  (Forall has_role_and_content history →
   ∃ ms, Forall2 (λ m built, message_of m = Some built) history ms
         ∧ chat message history w
           = (runner_run w flight_agent (ms ++ [message_dict (lit "user") message]), w))
  ∧ (¬ Forall has_role_and_content history →
     ∃ key : string, (key = "role"%string ∨ key = "content"%string)
            ∧ chat message history w
              = (Raised (Error "KeyError" (lit "'" ++ lit key ++ lit "'")), w))
  ∧ (∀ role content, dom (message_dict role content)
                     = ({[lit "role"; lit "content"]} : gset pystr)).
Proof.
  split; [|split].
  - intros Hall. destruct (role_content_ok history Hall) as (ms & Hms & H2).
    exists ms. split; [done|].
    unfold chat, mbind, eff_bind, lift, gets. rewrite Hms. fold flight_agent.
    by destruct (runner_run w _ _).
  - intros Hn. destruct (role_content_missing history Hn) as (key & Hk & Hr).
    exists key. split; [done|]. unfold chat, mbind, eff_bind, lift. by rewrite Hr.
  - intros role content. unfold message_dict.
    rewrite !dom_insert_L, dom_empty_L. set_solver.
Qed.

End tool_properties.


Lemma X16_price_lookup_ignores_ascii_case_witness :
  (@Airline.get_ticket_price Samples.runtime (Py.lit "SYDNEY") Samples.seeded).1
  = (@Airline.get_ticket_price Samples.runtime (Py.lit "sydney") Samples.seeded).1.
Proof.
  apply (@X16_price_lookup_ignores_ascii_case Samples.runtime (Py.lit "SYDNEY")
           Samples.seeded).
  reflexivity.
Defined.


Lemma X18_chat_sends_history_then_message_witness :
  (∃ ms, Forall2 (λ m built, AirlineSpec.message_of m = Some built) Samples.two_turns ms
         ∧ Airline.chat (Py.lit "Price to Paris?") Samples.two_turns Samples.fresh
           = (Airline.runner_run Samples.fresh AirlineSpec.flight_agent
                (ms ++ [Airline.message_dict (Py.lit "user") (Py.lit "Price to Paris?")]),
              Samples.fresh))
  ∧ (∃ key : string, (key = "role"%string ∨ key = "content"%string)
       ∧ Airline.chat (Py.lit "Hi") Samples.no_content Samples.fresh
         = (Py.Raised (Py.Error "KeyError" (Py.lit "'" ++ Py.lit key ++ Py.lit "'")),
            Samples.fresh)).
Proof.
  split.
  - apply (X18_chat_sends_history_then_message (Py.lit "Price to Paris?")
             Samples.two_turns Samples.fresh).
    repeat constructor; by eexists.
  - apply (X18_chat_sends_history_then_message (Py.lit "Hi")
             Samples.no_content Samples.fresh).
    intros Hall. apply Forall_cons in Hall as [[_ [c Hc]] _].
    vm_compute in Hc. discriminate.
Defined.
